(** * LeanBot: the backtest report generator, [visualize_backtest.py]

    A shallow embedding of the script and the properties its design
    document states about it.  The first part follows the script function
    by function; the second part states and proves the properties.

    Conventions of the embedding.

    - A Python [str] is a [string] of bytes.  [str.lower], [str.upper], the
      regular expression class [\d] and the whitespace stripped by [float]
      are modelled on ASCII; a non-ASCII character is a run of bytes above
      127 that these operations leave alone.
    - A Python [float] is an IEEE 754 binary64 number, [spec_float] with
      precision 53 and maximal exponent 1024; a float held by a [pyvalue] is
      in canonical form, as every operation below returns it.
    - A Python [dict] is the list of its items in insertion order; its keys
      are pairwise distinct.
    - An exception is an element of [exn]; code that may raise returns an
      [outcome].  Code that reads or writes files, or prints, is a function
      of the [world] that returns the world it leaves.
    - The clock of the machine and its time zone are a [clock], an argument
      of the code that reads them.  [pandas] and [matplotlib] are not
      modelled: what they return is a variable of the section that holds
      [main]. *)

From Stdlib Require Import ZArith List Ascii String Bool Lia SpecFloat DecimalString.
From stdpp Require Import base list strings gmap.

#[local] Set Warnings "-register-all".

Local Open Scope Z_scope.

(** ** Exceptions and outcomes *)

Inductive exn : Type :=
| KeyError (key : string)
| TypeError
| ValueError
| AttributeError
| OverflowError
| FileNotFoundError
| IsADirectoryError
| NotADirectoryError
| JSONDecodeError
| SystemExit (status : Z).

Inductive outcome (A : Type) : Type :=
| Ret (a : A)
| Raise (e : exn).
Arguments Ret {A} a.
Arguments Raise {A} e.

Global Instance outcome_ret : MRet outcome := fun A a => Ret a.

Global Instance outcome_bind : MBind outcome := fun A B k m =>
  match m with
  | Ret a => k a
  | Raise e => Raise e
  end.

(** [try: body except: handler], the bare [except] that catches everything. *)
Definition try_except {A : Type} (body : outcome A) (handler : outcome A) : outcome A :=
  match body with
  | Ret a => Ret a
  | Raise _ => handler
  end.

(** ** Python values, as [json.load] builds them *)

Inductive pyvalue : Type :=
| VNone
| VBool (b : bool)
| VInt (z : Z)
| VFloat (f : spec_float)
| VStr (s : string)
| VList (l : list pyvalue)
| VDict (d : list (string * pyvalue)).

Abbreviation dict := (list (string * pyvalue)).

(** ** Strings *)

Definition chars (s : string) : list ascii := list_ascii_of_string s.
Definition of_chars (l : list ascii) : string := string_of_list_ascii l.

Definition code (c : ascii) : Z := Z.of_N (N_of_ascii c).

Definition is_digit (c : ascii) : bool := (48 <=? code c) && (code c <=? 57).

Definition digit_value (c : ascii) : Z := code c - 48.

Definition is_upper (c : ascii) : bool := (65 <=? code c) && (code c <=? 90).
Definition is_lower (c : ascii) : bool := (97 <=? code c) && (code c <=? 122).

Definition lower_char (c : ascii) : ascii :=
  if is_upper c then ascii_of_N (Z.to_N (code c + 32)) else c.
Definition upper_char (c : ascii) : ascii :=
  if is_lower c then ascii_of_N (Z.to_N (code c - 32)) else c.

(** [s.lower()] and [s.upper()] *)
Fixpoint lower (s : string) : string :=
  match s with
  | EmptyString => EmptyString
  | String c s' => String (lower_char c) (lower s')
  end.

Fixpoint upper (s : string) : string :=
  match s with
  | EmptyString => EmptyString
  | String c s' => String (upper_char c) (upper s')
  end.

(** [x in s] on strings: [x] occurs in [s] as a contiguous run. *)
Fixpoint str_in (x s : string) : bool :=
  String.prefix x s ||
  match s with
  | EmptyString => false
  | String _ s' => str_in x s'
  end.

(** [any(x in s for x in keywords)] *)
Definition any_in (keywords : list string) (s : string) : bool :=
  existsb (fun x => str_in x s) keywords.

(** Decimal digits of a natural number, as [str(n)] writes them. *)
Definition decimal (n : Z) : string :=
  NilZero.string_of_uint (N.to_uint (Z.to_N n)).

Fixpoint repeat_char (c : ascii) (n : nat) : string :=
  match n with
  | O => EmptyString
  | S n' => String c (repeat_char c n')
  end.

(** [n] written with at least [width] digits, zero filled. *)
Definition zero_pad (width : nat) (n : Z) : string :=
  let d := decimal n in
  repeat_char "0" (width - String.length d)%nat +:+ d.

(** Value of a run of decimal digits. *)
Definition digits_value (ds : list ascii) : Z :=
  fold_left (fun acc c => 10 * acc + digit_value c) ds 0.

(** ** Floats: IEEE 754 binary64 *)

Definition prec : Z := 53.
Definition emax : Z := 1024.

(** The float nearest to the integer [z], ties to even. *)
Definition float_of_Z (z : Z) : spec_float := binary_normalize prec emax z 0 false.

Definition f100 : spec_float := float_of_Z 100.

(** The float nearest to [(-1)^neg * m * 10^k], ties to even: what the
    correctly rounded [strtod] behind [float(str)] returns. *)
Definition float_of_decimal (neg : bool) (m : Z) (k : Z) : spec_float :=
  match m with
  | Zpos p =>
      if 0 <=? k then binary_round prec emax neg (Z.to_pos (Zpos p * 10 ^ k)) 0
      else SFdiv prec emax (S754_finite neg p 0)
                 (S754_finite false (Z.to_pos (10 ^ (- k))) 0)
  | _ => S754_zero neg
  end.

(** [float(n)] for an [int]: [OverflowError] when [n] is too large. *)
Definition int_to_float (z : Z) : outcome spec_float :=
  match float_of_Z z with
  | S754_infinity _ => Raise OverflowError
  | f => Ret f
  end.

(** *** [float(s)] for a string

    The grammar of the language reference: optional sign, then [inf],
    [infinity] or [nan] in any case, or a decimal number with an optional
    exponent; digits may be grouped by single underscores; white space
    around the whole is dropped. *)

Fixpoint lstrip (l : list ascii) : list ascii :=
  match l with
  | c :: l' => if Ascii.is_space c then lstrip l' else l
  | [] => []
  end.

Definition strip (l : list ascii) : list ascii := rev (lstrip (rev (lstrip l))).

(** [digit (["_"] digit)*] after its first digit: the digits read, and the rest. *)
Fixpoint digitpart_tail (l : list ascii) (acc : list ascii) : list ascii * list ascii :=
  match l with
  | c :: l' =>
      if is_digit c then digitpart_tail l' (c :: acc)
      else if Ascii.eqb c "_" then
        match l' with
        | d :: l'' => if is_digit d then digitpart_tail l'' (d :: acc) else (rev acc, l)
        | [] => (rev acc, l)
        end
      else (rev acc, l)
  | [] => (rev acc, [])
  end.

(** An optional [digitpart]: no digits when [l] does not start with one. *)
Definition digitpart (l : list ascii) : list ascii * list ascii :=
  match l with
  | c :: l' => if is_digit c then digitpart_tail l' [c] else ([], l)
  | [] => ([], [])
  end.

Definition sign (l : list ascii) : bool * list ascii :=
  match l with
  | "-"%char :: l' => (true, l')
  | "+"%char :: l' => (false, l')
  | _ => (false, l)
  end.

(** [("e" | "E") [sign] digitpart], or nothing: the exponent, and the rest. *)
Definition exponent (l : list ascii) : option (Z * list ascii) :=
  match l with
  | c :: l' =>
      if Ascii.eqb (lower_char c) "e" then
        let '(neg, l1) := sign l' in
        match digitpart l1 with
        | ([], _) => None
        | (ds, rest) => Some (cond_Zopp neg (digits_value ds), rest)
        end
      else Some (0, l)
  | [] => Some (0, [])
  end.

Definition floatnumber (neg : bool) (l : list ascii) : option spec_float :=
  let '(ip, l1) := digitpart l in
  let '(fp, l2) :=
    match l1 with
    | "."%char :: l1' => digitpart l1'
    | _ => ([], l1)
    end in
  match ip, fp with
  | [], [] => None
  | _, _ =>
      match exponent l2 with
      | Some (e, []) =>
          Some (float_of_decimal neg (digits_value (ip ++ fp)) (e - Z.of_nat (length fp)))
      | _ => None
      end
  end.

Definition parse_float (s : string) : option spec_float :=
  let '(neg, l) := sign (strip (chars s)) in
  let word := lower (of_chars l) in
  if String.eqb word "inf" || String.eqb word "infinity" then Some (S754_infinity neg)
  else if String.eqb word "nan" then Some S754_nan
  else floatnumber neg l.

(** ** Built-in operations on values *)

(** [bool(v)], the truth value tested by [if v] and [not v]. *)
Definition truthy (v : pyvalue) : bool :=
  match v with
  | VNone => false
  | VBool b => b
  | VInt z => negb (z =? 0)
  | VFloat (S754_zero _) => false
  | VFloat _ => true
  | VStr EmptyString => false
  | VStr _ => true
  | VList [] => false
  | VList _ => true
  | VDict [] => false
  | VDict _ => true
  end.

(** [float(v)] *)
Definition py_float (v : pyvalue) : outcome spec_float :=
  match v with
  | VBool b => Ret (float_of_Z (if b then 1 else 0))
  | VInt z => int_to_float z
  | VFloat f => Ret f
  | VStr s =>
      match parse_float s with
      | Some f => Ret f
      | None => Raise ValueError
      end
  | VNone | VList _ | VDict _ => Raise TypeError
  end.

(** ** Format specifications for floats *)

(** [n / d] rounded to the nearest integer, ties to even ([0 <= n], [0 < d]). *)
Definition div_half_even (n d : Z) : Z :=
  let q := n / d in
  match 2 * (n mod d) ?= d with
  | Lt => q
  | Gt => q + 1
  | Eq => if Z.even q then q else q + 1
  end.

(** [m * 2^e * 10^p] rounded to the nearest integer, ties to even. *)
Definition scaled (m : positive) (e : Z) (p : nat) : Z :=
  if 0 <=? e then Zpos m * 2 ^ e * 10 ^ Z.of_nat p
  else div_half_even (Zpos m * 10 ^ Z.of_nat p) (2 ^ (- e)).

(** The thousands separator of the [,] option, on a run of digits. *)
Fixpoint group_rev (l : list ascii) (n : nat) : list ascii :=
  match l with
  | [] => []
  | c :: l' =>
      match n, l' with
      | S (S O), _ :: _ => c :: ","%char :: group_rev l' O
      | _, _ => c :: group_rev l' (S n)
      end
  end.

Definition group_thousands (digits : string) : string :=
  of_chars (rev (group_rev (rev (chars digits)) O)).

(** The digits of the integer [n] standing for [n / 10^p]: integer part,
    grouped on demand, and [p] decimals. *)
Definition fixed_digits (grouping : bool) (p : nat) (n : Z) : string :=
  let ds := chars (zero_pad (S p) n) in
  let k := (length ds - p)%nat in
  let ip := of_chars (take k ds) in
  let ip := if grouping then group_thousands ip else ip in
  match p with
  | O => ip
  | _ => ip +:+ "." +:+ of_chars (drop k ds)
  end.

(** [format(f, '.pf')], and [format(f, ',.pf')] with [grouping]. *)
Definition format_f (grouping : bool) (p : nat) (f : spec_float) : string :=
  match f with
  | S754_nan => "nan"
  | S754_infinity s => (if s then "-" else "") +:+ "inf"
  | S754_zero s => (if s then "-" else "") +:+ fixed_digits grouping p 0
  | S754_finite s m e => (if s then "-" else "") +:+ fixed_digits grouping p (scaled m e p)
  end.

(** [format(f, '.p%')]: the float times 100, in fixed notation, and a percent sign. *)
Definition format_percent (p : nat) (f : spec_float) : string :=
  format_f false p (SFmul prec emax f f100) +:+ "%".

(** ** Dictionaries *)

(** [d.get(k)]: the value bound to [k], if any. *)
Fixpoint dict_get (d : dict) (k : string) : option pyvalue :=
  match d with
  | [] => None
  | (k', v) :: d' => if String.eqb k' k then Some v else dict_get d' k
  end.

(** [k in d] *)
Definition dict_has (d : dict) (k : string) : bool :=
  match dict_get d k with
  | Some _ => true
  | None => false
  end.

(** [d[k] = v]: a bound key keeps its place, a new one goes last. *)
Fixpoint dict_set (d : dict) (k : string) (v : pyvalue) : dict :=
  match d with
  | [] => [(k, v)]
  | (k', v') :: d' =>
      if String.eqb k' k then (k', v) :: d' else (k', v') :: dict_set d' k v
  end.

(** [v[k]] for a string [k]: only a [dict] can be indexed by a string. *)
Definition getitem (v : pyvalue) (k : string) : outcome pyvalue :=
  match v with
  | VDict d =>
      match dict_get d k with
      | Some x => Ret x
      | None => Raise (KeyError k)
      end
  | _ => Raise TypeError
  end.

(** [v.get(k, default)]: a method of [dict] only. *)
Definition get_method (v : pyvalue) (k : string) (default : pyvalue) : outcome pyvalue :=
  match v with
  | VDict d =>
      match dict_get d k with
      | Some x => Ret x
      | None => Ret default
      end
  | _ => Raise AttributeError
  end.

(** [v.items()] *)
Definition items (v : pyvalue) : outcome dict :=
  match v with
  | VDict d => Ret d
  | _ => Raise AttributeError
  end.

(** ** [format_stat_value] *)

Definition percentage_keywords : list string :=
  ["rate"; "return"; "ratio"; "drawdown"; "variance"; "turnover"; "deviation"].

Definition currency_keywords : list string := ["equity"; "fees"; "capacity"].

Definition format_stat_value (key : string) (value : pyvalue) : outcome pyvalue :=
  (* Percentage metrics *)
  if any_in percentage_keywords (lower key) then
    try_except
      (if truthy value
       then f ← py_float value; Ret (VStr (format_percent 2 f))
       else Ret (VStr "0.00%"))
      (Ret value)
  (* Currency values *)
  else if any_in currency_keywords (lower key) then
    try_except
      (f ← py_float value; Ret (VStr ("$" +:+ format_f true 2 f)))
      (Ret value)
  (* Regular numbers *)
  else
    try_except
      (num ← py_float value;
       if SFltb (SFabs num) f100
       then Ret (VStr (format_f false 4 num))
       else Ret (VStr (format_f true 2 num)))
      (Ret value).

(** ** [str] and [repr] *)

Definition join (sep : string) (l : list string) : string :=
  match l with
  | [] => ""
  | x :: l' => fold_left (fun acc y => acc +:+ sep +:+ y) l' x
  end.

(** [str(n)] for an [int] *)
Definition int_str (z : Z) : string :=
  if z <? 0 then "-" +:+ decimal (- z) else decimal z.

Fixpoint rstrip_zeros_rev (l : list ascii) : list ascii :=
  match l with
  | "0"%char :: l' => rstrip_zeros_rev l'
  | _ => l
  end.

(** The shortest run of digits that [float] reads back as [m * 2^e], and
    the position of its decimal point: the value is [0.d1d2... * 10^decpt]. *)
Definition shortest_digits (m : positive) (e : Z) : list ascii * Z :=
  let num := if 0 <=? e then Zpos m * 2 ^ e else Zpos m in
  let den := if 0 <=? e then 1 else 2 ^ (- e) in
  let k := Z.of_nat (String.length (decimal (num * 10 ^ 400 / den))) - 401 in
  let try (n : Z) : option Z :=
    let sh := n - 1 - k in
    let num' := if 0 <=? sh then num * 10 ^ sh else num in
    let den' := if 0 <=? sh then den else den * 10 ^ (- sh) in
    let lo := num' / den' in
    let r := num' mod den' in
    let back c := match float_of_decimal false c (- sh) with
                  | S754_finite _ m' e' => Pos.eqb m' m && (e' =? e)
                  | _ => false
                  end in
    if r =? 0 then (if back lo then Some lo else None)
    else
      match back lo, back (lo + 1) with
      | true, true =>
          match 2 * r ?= den' with
          | Lt => Some lo
          | Gt => Some (lo + 1)
          | Eq => Some (if Z.even lo then lo else lo + 1)
          end
      | true, false => Some lo
      | false, true => Some (lo + 1)
      | false, false => None
      end in
  let fix search (fuel : nat) (n : Z) : list ascii * Z :=
    match try n, fuel with
    | Some c, _ =>
        let ds := chars (decimal c) in
        (rev (rstrip_zeros_rev (rev ds)), Z.of_nat (length ds) + (k - n + 1))
    | None, S fuel' => search fuel' (n + 1)
    | None, O => ([], 0)
    end in
  search 17%nat 1.

(** [repr(f)], which is also [str(f)]. *)
Definition float_repr (f : spec_float) : string :=
  match f with
  | S754_nan => "nan"
  | S754_infinity s => (if s then "-" else "") +:+ "inf"
  | S754_zero s => (if s then "-" else "") +:+ "0.0"
  | S754_finite s m e =>
      let '(ds, decpt) := shortest_digits m e in
      let n := Z.of_nat (length ds) in
      let body :=
        if (decpt <=? -4) || (16 <? decpt) then
          let x := decpt - 1 in
          of_chars (take 1 ds)
          +:+ (if 1 <? n then "." +:+ of_chars (drop 1 ds) else "")
          +:+ "e" +:+ (if x <? 0 then "-" else "+") +:+ zero_pad 2 (Z.abs x)
        else if decpt <=? 0 then
          "0." +:+ repeat_char "0" (Z.to_nat (- decpt)) +:+ of_chars ds
        else if n <=? decpt then
          of_chars ds +:+ repeat_char "0" (Z.to_nat (decpt - n)) +:+ ".0"
        else
          of_chars (take (Z.to_nat decpt) ds) +:+ "." +:+ of_chars (drop (Z.to_nat decpt) ds) in
      (if s then "-" else "") +:+ body
  end.

Definition hex_digit (n : Z) : ascii :=
  ascii_of_N (Z.to_N (if n <? 10 then 48 + n else 87 + n)).

(** [repr(s)] for a string: quoted, with the ASCII control characters,
    the backslash and the quote escaped. *)
Definition str_repr (s : string) : string :=
  let cs := chars s in
  let has c := existsb (Ascii.eqb c) cs in
  let quote : ascii := if has "'"%char && negb (has (ascii_of_N 34)) then ascii_of_N 34 else "'"%char in
  let esc (c : ascii) : list ascii :=
    if Ascii.eqb c quote || Ascii.eqb c "\"%char then ["\"%char; c]
    else if code c =? 9 then ["\"; "t"]%char
    else if code c =? 10 then ["\"; "n"]%char
    else if code c =? 13 then ["\"; "r"]%char
    else if (code c <? 32) || (code c =? 127)
      then ["\"%char; "x"%char; hex_digit (code c / 16); hex_digit (code c mod 16)]
    else [c] in
  of_chars (quote :: concat (map esc cs) ++ [quote]).

Fixpoint py_repr (v : pyvalue) : string :=
  match v with
  | VNone => "None"
  | VBool b => if b then "True" else "False"
  | VInt z => int_str z
  | VFloat f => float_repr f
  | VStr s => str_repr s
  | VList l => "[" +:+ join ", " (map py_repr l) +:+ "]"
  | VDict d =>
      "{" +:+ join ", " (map (fun '(k, x) => str_repr k +:+ ": " +:+ py_repr x) d) +:+ "}"
  end.

(** [str(v)], what an f-string writes for [{v}]. *)
Definition py_str (v : pyvalue) : string :=
  match v with
  | VStr s => s
  | _ => py_repr v
  end.

(** ** The folder naming convention: [-\d{8}-\d{6}$] *)

(** A path is the list of its components; [Path(p).name] is the last one. *)
Abbreviation path := (list string).

Definition path_name (p : path) : string := List.last p "".

(** [-(\d{8})-(\d{6})] at the start of [l]: the two groups, and what follows. *)
Definition match_stamp (l : list ascii) : option (list ascii * list ascii * list ascii) :=
  match l with
  | "-"%char :: l1 =>
      match drop 8 l1 with
      | "-"%char :: l2 =>
          let d8 := take 8 l1 in
          let d6 := take 6 l2 in
          if (length d8 =? 8)%nat && forallb is_digit d8
             && (length d6 =? 6)%nat && forallb is_digit d6
          then Some (d8, d6, drop 6 l2)
          else None
      | _ => None
      end
  | _ => None
  end.

(** [$]: the end of the string, or the newline that ends it. *)
Definition at_end (l : list ascii) : bool :=
  match l with
  | [] => true
  | [c] => code c =? 10
  | _ => false
  end.

(** The pattern with its [$], at the start of [l]. *)
Definition match_stamp_end (l : list ascii) : option (list ascii * list ascii * list ascii) :=
  match match_stamp l with
  | Some (d8, d6, rest) => if at_end rest then Some (d8, d6, rest) else None
  | None => None
  end.

(** [re.search(r'-(\d{8})-(\d{6})$', s)]: the leftmost match, as the text
    before it, its two groups, and the text after it. *)
Fixpoint search_stamp (l : list ascii)
  : option (list ascii * list ascii * list ascii * list ascii) :=
  match match_stamp_end l with
  | Some (d8, d6, rest) => Some ([], d8, d6, rest)
  | None =>
      match l with
      | c :: l' =>
          match search_stamp l' with
          | Some (before, d8, d6, rest) => Some (c :: before, d8, d6, rest)
          | None => None
          end
      | [] => None
      end
  end.

(** [re.sub(r'-\d{8}-\d{6}$', '', s)]: a match reaches the end of the
    string, so there is at most one to remove. *)
Definition strip_stamp (s : string) : string :=
  match search_stamp (chars s) with
  | Some (before, _, _, rest) => of_chars (before ++ rest)
  | None => s
  end.

(** ** Dates and times *)

Record datetime : Type := {
  year : Z; month : Z; day : Z; hour : Z; minute : Z; second : Z
}.

Definition is_leap (y : Z) : bool :=
  (y mod 4 =? 0) && (negb (y mod 100 =? 0) || (y mod 400 =? 0)).

Definition days_in_month (y m : Z) : Z :=
  if m =? 2 then (if is_leap y then 29 else 28)
  else if (m =? 4) || (m =? 6) || (m =? 9) || (m =? 11) then 30
  else 31.

Definition valid_datetime (y m d H M S : Z) : bool :=
  (1 <=? y) && (y <=? 9999) && (1 <=? m) && (m <=? 12)
  && (1 <=? d) && (d <=? days_in_month y m)
  && (0 <=? H) && (H <=? 23) && (0 <=? M) && (M <=? 59) && (0 <=? S) && (S <=? 59).

(** [datetime(y, m, d, H, M, S)] *)
Definition make_datetime (y m d H M S : Z) : outcome datetime :=
  if valid_datetime y m d H M S
  then Ret {| year := y; month := m; day := d; hour := H; minute := M; second := S |}
  else Raise ValueError.

(** [datetime.strptime(s, "%Y%m%d%H%M%S")] on fourteen digits.  [%Y] takes
    four digits and every other directive at most two, and the whole text
    must be used, so each directive takes its full width; a field out of
    range fails in the match, in the left over text or in the constructor,
    with [ValueError] each time. *)
Definition strptime (ds : list ascii) : outcome datetime :=
  let field (i n : nat) := digits_value (take n (drop i ds)) in
  make_datetime (field 0 4)%nat (field 4 2)%nat (field 6 2)%nat
                (field 8 2)%nat (field 10 2)%nat (field 12 2)%nat.

(** [dt.strftime("%Y-%m-%d %H:%M:%S")].  The year is zero filled to four
    digits, as the library documents it; the C library of Linux writes a
    year below 1000 without the zeros, so the properties below speak of
    years from 1000 on, where the two agree. *)
Definition strftime (dt : datetime) : string :=
  zero_pad 4 (year dt) +:+ "-" +:+ zero_pad 2 (month dt) +:+ "-" +:+ zero_pad 2 (day dt)
  +:+ " " +:+ zero_pad 2 (hour dt) +:+ ":" +:+ zero_pad 2 (minute dt)
  +:+ ":" +:+ zero_pad 2 (second dt).

(** ** [generate_html_report]: the derived metadata *)

(** [k in v] for a string [k] *)
Definition contains (v : pyvalue) (k : string) : outcome bool :=
  match v with
  | VDict d => Ret (dict_has d k)
  | VStr s => Ret (str_in k s)
  | VList l =>
      Ret (existsb (fun x => match x with VStr s => String.eqb s k | _ => false end) l)
  | _ => Raise TypeError
  end.

(** Lines 163-182: the strategy name, from several sources in priority order. *)
Definition strategy_name_of (data algo_config : pyvalue) (results_folder : option path)
  : outcome pyvalue :=
  (* First, a strategy name in the raw data *)
  has1 ← contains data "strategyName";
  strategy_name ←
    (if has1 : bool then getitem data "strategyName"
     else
       has2 ← contains data "strategy-name";
       if has2 : bool then getitem data "strategy-name" else Ret VNone);
  (* If not found and we have a results folder, extract from folder name *)
  let strategy_name :=
    match results_folder with
    | Some folder =>
        if negb (truthy strategy_name) then VStr (strip_stamp (path_name folder))
        else strategy_name
    | None => strategy_name
    end in
  (* Fallback to algorithmConfiguration name *)
  if negb (truthy strategy_name) then get_method algo_config "name" (VStr "N/A")
  else Ret strategy_name.

(** Lines 184-199: the run time stamp, from the folder name if available. *)
Definition run_time_of (results_folder : option path) : string :=
  match results_folder with
  | Some folder =>
      match search_stamp (chars (path_name folder)) with
      | Some (_, date_str, time_str, _) =>
          match strptime (date_str ++ time_str) with
          | Ret dt => strftime dt
          | Raise _ => "N/A"
          end
      | None => "N/A"
      end
  | None => "N/A"
  end.

(** Lines 201-213: the statistics, organised into categories. *)
Definition performance_keywords : list string :=
  ["return"; "profit"; "alpha"; "beta"; "information"].

Definition risk_keywords : list string :=
  ["sharpe"; "sortino"; "drawdown"; "variance"; "deviation"; "risk"].

Record buckets : Type := {
  performance_stats : dict;
  risk_stats : dict;
  trade_stats : dict
}.

Definition no_stats : buckets :=
  {| performance_stats := []; risk_stats := []; trade_stats := [] |}.

(** A [for] loop whose body may raise. *)
Fixpoint for_each {S A : Type} (body : S -> A -> outcome S) (l : list A) (s : S) : outcome S :=
  match l with
  | [] => Ret s
  | x :: l' => s' ← body s x; for_each body l' s'
  end.

Definition organize_step (b : buckets) (item : string * pyvalue) : outcome buckets :=
  let '(key, value) := item in
  let key_lower := lower key in
  if any_in performance_keywords key_lower then
    v ← format_stat_value key value;
    Ret {| performance_stats := dict_set (performance_stats b) key v;
           risk_stats := risk_stats b;
           trade_stats := trade_stats b |}
  else if any_in risk_keywords key_lower then
    v ← format_stat_value key value;
    Ret {| performance_stats := performance_stats b;
           risk_stats := dict_set (risk_stats b) key v;
           trade_stats := trade_stats b |}
  else
    v ← format_stat_value key value;
    Ret {| performance_stats := performance_stats b;
           risk_stats := risk_stats b;
           trade_stats := dict_set (trade_stats b) key v |}.

Definition organize_stats (stats : pyvalue) : outcome buckets :=
  its ← items stats;
  for_each organize_step its no_stats.

(** ** The world: files and the console *)

(** A regular file holding a JSON document is kept as the document that
    [json.load] reads from it; any other regular file as its text. *)
Inductive fnode : Type :=
| FJson (doc : pyvalue)
| FText (text : string)
| FDir (entries : list string) (mtime : Z).

(** A call of [print]: its text, or a text followed by an exception whose
    message is not modelled. *)
Inductive line : Type :=
| Line (text : string)
| LineExn (text : string) (e : exn).

Record world : Type := {
  fs : gmap path fnode;
  console : list line
}.

(** The clock of the machine: [time.time()] in whole seconds, and the
    offset of local time from UTC, in seconds, at each instant. *)
Record clock : Type := {
  time_now : Z;
  utc_offset : Z -> Z
}.

(** Code that reads or changes the world and may raise. *)
Definition M (A : Type) : Type := world -> outcome A * world.

Global Instance M_ret : MRet M := fun A a w => (Ret a, w).

Global Instance M_bind : MBind M := fun A B k m w =>
  match m w with
  | (Ret a, w') => k a w'
  | (Raise e, w') => (Raise e, w')
  end.

Definition lift {A : Type} (o : outcome A) : M A := fun w => (o, w).

Definition raise {A : Type} (e : exn) : M A := fun w => (Raise e, w).

Definition try_catch {A : Type} (body : M A) (handler : exn -> M A) : M A := fun w =>
  match body w with
  | (Ret a, w') => (Ret a, w')
  | (Raise e, w') => handler e w'
  end.

Definition print (text : string) : M unit := fun w =>
  (Ret tt, {| fs := fs w; console := console w ++ [Line text] |}).

Definition print_exn (text : string) (e : exn) : M unit := fun w =>
  (Ret tt, {| fs := fs w; console := console w ++ [LineExn text e] |}).

Definition nl : string := String (ascii_of_N 10) EmptyString.
Definition dq : string := String (ascii_of_N 34) EmptyString.

(** [str(p)] for a path *)
Definition path_str (p : path) : string := join "/" p.

(** [p.exists()] and [p.is_dir()] *)
Definition path_exists (p : path) : M bool := fun w =>
  (Ret (match fs w !! p with Some _ => true | None => false end), w).

Definition is_dir (p : path) : M bool := fun w =>
  (Ret (match fs w !! p with Some (FDir _ _) => true | _ => false end), w).

Definition ends_with (suffix s : string) : bool :=
  String.prefix (of_chars (rev (chars suffix))) (of_chars (rev (chars s))).

(** [list(folder.glob("*" + suffix))]: the entries of the folder whose name
    ends with [suffix], in the order of the listing. *)
Definition glob_suffix (folder : path) (suffix : string) : M (list path) := fun w =>
  (Ret (match fs w !! folder with
        | Some (FDir entries _) =>
            map (fun name => folder ++ [name]) (List.filter (ends_with suffix) entries)
        | _ => []
        end), w).

(** [list(p.iterdir())] *)
Definition iterdir (p : path) : M (list path) := fun w =>
  match fs w !! p with
  | Some (FDir entries _) => (Ret (map (fun name => p ++ [name]) entries), w)
  | Some _ => (Raise NotADirectoryError, w)
  | None => (Raise FileNotFoundError, w)
  end.

(** [with open(p, 'r') as f: json.load(f)] *)
Definition load_json (p : path) : M pyvalue := fun w =>
  match fs w !! p with
  | Some (FJson doc) => (Ret doc, w)
  | Some (FText _) => (Raise JSONDecodeError, w)
  | Some (FDir _ _) => (Raise IsADirectoryError, w)
  | None => (Raise FileNotFoundError, w)
  end.

(** [with open(p, 'w') as f: f.write(text)]: the file is created in its
    directory, or replaced. *)
Definition write_text (p : path) (text : string) : M unit := fun w =>
  match fs w !! p with
  | Some (FDir _ _) => (Raise IsADirectoryError, w)
  | _ =>
      match fs w !! removelast p with
      | Some (FDir entries mtime) =>
          let name := path_name p in
          let entries' :=
            if existsb (String.eqb name) entries then entries else entries ++ [name] in
          (Ret tt,
           {| fs := <[p := FText text]> (<[removelast p := FDir entries' mtime]> (fs w));
              console := console w |})
      | Some _ => (Raise NotADirectoryError, w)
      | None => (Raise FileNotFoundError, w)
      end
  end.

(** ** [load_results] *)

Definition load_results (json_file : path) : M pyvalue := load_json json_file.

(** ** [load_order_events] *)

(** [iter(v)]: the elements a [for] goes through. *)
Definition iterate (v : pyvalue) : outcome (list pyvalue) :=
  match v with
  | VList l => Ret l
  | VDict d => Ret (map (fun '(k, _) => VStr k) d)
  | VStr s => Ret (map (fun c => VStr (String c EmptyString)) (chars s))
  | _ => Raise TypeError
  end.

(** [v == s] for a string [s] *)
Definition eq_str (v : pyvalue) (s : string) : bool :=
  match v with
  | VStr s' => String.eqb s' s
  | _ => false
  end.

(** Line 50: [[e for e in events if e.get('status') == 'filled']] *)
Fixpoint filled (events : list pyvalue) : outcome (list pyvalue) :=
  match events with
  | [] => Ret []
  | e :: events' =>
      status ← get_method e "status" VNone;
      rest ← filled events';
      Ret (if eq_str status "filled" then e :: rest else rest)
  end.

Definition load_order_events (folder_path : path) : M (list pyvalue) :=
  let folder := folder_path in
  (* Extract strategy name from folder name *)
  let folder_name := path_name folder in
  let strategy_name := strip_stamp folder_name in
  (* Look for {StrategyName}-order-events.json *)
  let order_events_file := folder ++ [strategy_name +:+ "-order-events.json"] in
  found ← path_exists order_events_file;
  chosen ←
    (if found : bool then mret (Some order_events_file)
     else
       (* Fallback: look for any order-events.json file *)
       order_events_files ← glob_suffix folder "-order-events.json";
       match order_events_files with
       | [] => print "⚠️  Warning: No order events file found";; mret None
       | first :: _ => mret (Some first)
       end);
  match chosen with
  | None => mret []
  | Some order_events_file =>
      try_catch
        (events ← load_json order_events_file;
         (* Filter to only filled orders (actual trades) *)
         lift (l ← iterate events; filled l))
        (fun e => print_exn "⚠️  Warning: Could not load order events: " e;; mret [])
  end.

(** ** Numbers in the trades table *)

Fixpoint repeat_string (s : string) (n : nat) : string :=
  match n with
  | O => ""
  | S n' => s +:+ repeat_string s n'
  end.

Definition as_int (v : pyvalue) : option Z :=
  match v with
  | VBool b => Some (if b then 1 else 0)
  | VInt z => Some z
  | _ => None
  end.

(** [a * b]: the product of two numbers, or a sequence repeated. *)
Definition py_mul (a b : pyvalue) : outcome pyvalue :=
  match as_int a, as_int b with
  | Some x, Some y => Ret (VInt (x * y))
  | Some x, None =>
      match b with
      | VFloat g => f ← int_to_float x; Ret (VFloat (SFmul prec emax f g))
      | VStr s => Ret (VStr (repeat_string s (Z.to_nat x)))
      | VList l => Ret (VList (concat (replicate (Z.to_nat x) l)))
      | _ => Raise TypeError
      end
  | None, Some y =>
      match a with
      | VFloat f => g ← int_to_float y; Ret (VFloat (SFmul prec emax f g))
      | VStr s => Ret (VStr (repeat_string s (Z.to_nat y)))
      | VList l => Ret (VList (concat (replicate (Z.to_nat y) l)))
      | _ => Raise TypeError
      end
  | None, None =>
      match a, b with
      | VFloat f, VFloat g => Ret (VFloat (SFmul prec emax f g))
      | _, _ => Raise TypeError
      end
  end.

(** [abs(v)] *)
Definition py_abs (v : pyvalue) : outcome pyvalue :=
  match v with
  | VBool b => Ret (VInt (if b then 1 else 0))
  | VInt z => Ret (VInt (Z.abs z))
  | VFloat f => Ret (VFloat (SFabs f))
  | _ => Raise TypeError
  end.

(** [format(v, ',.pf')]: an [int] is turned into a [float] first. *)
Definition format_number (p : nat) (v : pyvalue) : outcome string :=
  match v with
  | VBool _ | VInt _ => f ← py_float v; Ret (format_f true p f)
  | VFloat f => Ret (format_f true p f)
  | VStr _ => Raise ValueError
  | _ => Raise TypeError
  end.

(** [v.upper()] *)
Definition upper_method (v : pyvalue) : outcome string :=
  match v with
  | VStr s => Ret (upper s)
  | _ => Raise AttributeError
  end.

(** ** Local time *)

(** The civil date of a day counted from 1970-01-01. *)
Definition civil_of_days (days : Z) : Z * Z * Z :=
  let z := days + 719468 in
  let era := z / 146097 in
  let doe := z - era * 146097 in
  let yoe := (doe - doe / 1460 + doe / 36524 - doe / 146096) / 365 in
  let doy := doe - (365 * yoe + yoe / 4 - yoe / 100) in
  let mp := (5 * doy + 2) / 153 in
  let d := doy - (153 * mp + 2) / 5 + 1 in
  let m := if mp <? 10 then mp + 3 else mp - 9 in
  (yoe + era * 400 + (if m <=? 2 then 1 else 0), m, d).

(** The local date and time at [t] seconds of the epoch; a year outside
    1..9999 is refused. *)
Definition local_datetime (clk : clock) (t : Z) : outcome datetime :=
  let lt := t + utc_offset clk t in
  let '(y, m, d) := civil_of_days (lt / 86400) in
  let s := lt mod 86400 in
  make_datetime y m d (s / 3600) (s mod 3600 / 60) (s mod 60).

(** The whole seconds of a time stamp.  A float is split into its integer
    and fractional parts; the fraction, in microseconds, is rounded to the
    nearest integer, ties to even, and a fraction that reaches a million or
    falls below zero carries into the seconds. *)
Definition timestamp_seconds (v : pyvalue) : outcome Z :=
  match v with
  | VBool b => Ret (if b then 1 else 0)
  | VInt z => Ret z
  | VFloat S754_nan => Raise ValueError
  | VFloat (S754_infinity _) => Raise OverflowError
  | VFloat (S754_zero _) => Ret 0
  | VFloat (S754_finite s m e) =>
      if 0 <=? e then Ret (cond_Zopp s (Zpos m * 2 ^ e))
      else
        let intpart := cond_Zopp s (Zpos m / 2 ^ (- e)) in
        let floatpart := binary_normalize prec emax (cond_Zopp s (Zpos m mod 2 ^ (- e))) e s in
        let micro := SFmul prec emax floatpart (float_of_Z 1000000) in
        if SFleb (float_of_decimal false 9999995 (-1)) micro then Ret (intpart + 1)
        else if SFltb micro (float_of_decimal true 5 (-1)) then Ret (intpart - 1)
        else Ret intpart
  | _ => Raise TypeError
  end.

(** The local time at [t], as the library builds it: it also looks one
    day back, to detect a repeated hour, and that instant must be in range
    as well.  Every instant out of range is refused with [ValueError];
    the class of the exception far from the epoch depends on the platform. *)
Definition from_time_t (clk : clock) (t : Z) : outcome datetime :=
  dt ← local_datetime clk t;
  _ ← local_datetime clk (t - 86400);
  Ret dt.

(** [datetime.fromtimestamp(v)] *)
Definition fromtimestamp (clk : clock) (v : pyvalue) : outcome datetime :=
  t ← timestamp_seconds v;
  from_time_t clk t.

(** [datetime.now()] *)
Definition datetime_now (clk : clock) : outcome datetime :=
  from_time_t clk (time_now clk).

(** ** [generate_html_report]: the page *)

(** Lines 270-461, the page: the document up to the title. *)
Definition page_0 : string :=
  "
<!DOCTYPE html>
<html>
<head>
    <meta charset=" +:+ dq +:+ "UTF-8" +:+ dq +:+ ">
    <meta name=" +:+ dq +:+ "viewport" +:+ dq +:+ " content=" +:+ dq +:+ "width=device-width, initial-scale=1.0" +:+ dq +:+ ">
    <title>Backtest Report - ".

(** Lines 270-461, the page: the style sheet and the heading, up to the strategy name. *)
Definition page_1 : string :=
  "</title>
    <style>
        body {
            font-family: 'Segoe UI', Tahoma, Geneva, Verdana, sans-serif;
            margin: 0;
            padding: 20px;
            background-color: #f5f5f5;
        }
        .container {
            max-width: 1400px;
            margin: 0 auto;
            background-color: white;
            padding: 30px;
            box-shadow: 0 2px 4px rgba(0,0,0,0.1);
            border-radius: 8px;
        }
        h1 {
            color: #2c3e50;
            border-bottom: 3px solid #ff9914;
            padding-bottom: 10px;
            margin-bottom: 30px;
        }
        h2 {
            color: #34495e;
            margin-top: 40px;
            margin-bottom: 20px;
            border-left: 4px solid #ff9914;
            padding-left: 15px;
        }
        .info-box {
            background-color: #ecf0f1;
            padding: 15px;
            border-radius: 5px;
            margin-bottom: 30px;
        }
        .info-box p {
            margin: 5px 0;
            color: #555;
        }
        .chart-container {
            margin: 30px 0;
            text-align: center;
        }
        .chart-container img {
            max-width: 100%;
            height: auto;
            border: 1px solid #ddd;
            border-radius: 5px;
        }
        .stats-grid {
            display: grid;
            grid-template-columns: repeat(auto-fit, minmax(300px, 1fr));
            gap: 20px;
            margin: 20px 0;
        }
        .stat-card {
            background-color: #f8f9fa;
            padding: 20px;
            border-radius: 5px;
            border-left: 4px solid #ff9914;
        }
        .stat-card h3 {
            margin-top: 0;
            color: #2c3e50;
            font-size: 16px;
            margin-bottom: 15px;
        }
        .stat-item {
            display: flex;
            justify-content: space-between;
            padding: 8px 0;
            border-bottom: 1px solid #e0e0e0;
        }
        .stat-item:last-child {
            border-bottom: none;
        }
        .stat-label {
            color: #555;
            font-weight: 500;
        }
        .stat-value {
            color: #2c3e50;
            font-weight: 600;
        }
        .highlight {
            font-size: 24px;
            color: #27ae60;
        }
        .highlight.negative {
            color: #e74c3c;
        }
        table {
            width: 100%;
            border-collapse: collapse;
            margin: 20px 0;
        }
        th, td {
            padding: 12px;
            text-align: left;
            border-bottom: 1px solid #ddd;
        }
        th {
            background-color: #34495e;
            color: white;
            font-weight: 600;
        }
        tr:hover {
            background-color: #f5f5f5;
        }
        tr.buy {
            border-left: 3px solid #27ae60;
        }
        tr.sell {
            border-left: 3px solid #e74c3c;
        }
        .footer {
            margin-top: 50px;
            padding-top: 20px;
            border-top: 1px solid #ddd;
            text-align: center;
            color: #7f8c8d;
            font-size: 14px;
        }
    </style>
</head>
<body>
    <div class=" +:+ dq +:+ "container" +:+ dq +:+ ">
        <h1>📊 Backtest Report</h1>
        
        <div class=" +:+ dq +:+ "info-box" +:+ dq +:+ ">
            <p><strong>Strategy:</strong> ".

(** Lines 270-461, the page: up to the run time. *)
Definition page_2 : string :=
  "</p>
            <p><strong>Period:</strong> 2016-01-02 to 2021-01-02</p>
            <p><strong>Run Time:</strong> ".

(** Lines 270-461, the page: up to the equity chart. *)
Definition page_3 : string :=
  "</p>
            <p><strong>Status:</strong> Completed</p>
        </div>
        
        <h2>📈 Equity Curve</h2>
        <div class=" +:+ dq +:+ "chart-container" +:+ dq +:+ ">
            <img src=" +:+ dq.

(** Lines 270-461, the page: up to the drawdown chart. *)
Definition page_4 : string :=
  dq +:+ " alt=" +:+ dq +:+ "Equity Curve" +:+ dq +:+ ">
        </div>
        
        <h2>📉 Drawdown</h2>
        <div class=" +:+ dq +:+ "chart-container" +:+ dq +:+ ">
            <img src=" +:+ dq.

(** Lines 270-461, the page: up to the performance statistics. *)
Definition page_5 : string :=
  dq +:+ " alt=" +:+ dq +:+ "Drawdown" +:+ dq +:+ ">
        </div>
        
        <h2>📊 Key Performance Metrics</h2>
        <div class=" +:+ dq +:+ "stats-grid" +:+ dq +:+ ">
            <div class=" +:+ dq +:+ "stat-card" +:+ dq +:+ ">
                <h3>Performance Statistics</h3>
                ".

(** Lines 270-461, the page: up to the risk statistics. *)
Definition page_6 : string :=
  "
            </div>
            
            <div class=" +:+ dq +:+ "stat-card" +:+ dq +:+ ">
                <h3>Risk Statistics</h3>
                ".

(** Lines 270-461, the page: up to the trade statistics. *)
Definition page_7 : string :=
  "
            </div>
            
            <div class=" +:+ dq +:+ "stat-card" +:+ dq +:+ ">
                <h3>Trade Statistics</h3>
                ".

(** Lines 270-461, the page: up to the rows of the table of all statistics. *)
Definition page_8 : string :=
  "
            </div>
        </div>
        
        <h2>📋 All Statistics</h2>
        <table>
            <thead>
                <tr>
                    <th>Metric</th>
                    <th>Value</th>
                </tr>
            </thead>
            <tbody>
                ".

(** Lines 270-461, the page: up to the trades. *)
Definition page_9 : string :=
  "
            </tbody>
        </table>
        
        ".

(** Lines 270-461, the page: up to the time of generation. *)
Definition page_10 : string :=
  "
        
        <div class=" +:+ dq +:+ "footer" +:+ dq +:+ ">
            <p>Generated with Lean Algorithmic Trading Engine | ".

(** Lines 270-461, the page: the end of the document. *)
Definition page_11 : string :=
  "</p>
        </div>
    </div>
</body>
</html>
".

(** Lines 247-258, a row of the trades table: up to the class of the row. *)
Definition row_0 : string :=
  "
                <tr class=" +:+ dq.

(** Lines 247-258, a row of the trades table: up to the order id. *)
Definition row_1 : string :=
  dq +:+ ">
                    <td>".

(** Lines 247-258, a row of the trades table: up to the time. *)
Definition row_2 : string :=
  "</td>
                    <td>".

(** Lines 247-258, a row of the trades table: up to the symbol. *)
Definition row_3 : string :=
  "</td>
                    <td>".

(** Lines 247-258, a row of the trades table: up to the direction. *)
Definition row_4 : string :=
  "</td>
                    <td><strong>".

(** Lines 247-258, a row of the trades table: up to the quantity. *)
Definition row_5 : string :=
  "</strong></td>
                    <td>".

(** Lines 247-258, a row of the trades table: up to the fill price. *)
Definition row_6 : string :=
  "</td>
                    <td>$".

(** Lines 247-258, a row of the trades table: up to the total value. *)
Definition row_7 : string :=
  "</td>
                    <td>$".

(** Lines 247-258, a row of the trades table: up to the fee. *)
Definition row_8 : string :=
  "</td>
                    <td>$".

(** Lines 247-258, a row of the trades table: the end of the row. *)
Definition row_9 : string :=
  "</td>
                </tr>
".

(** Lines 218-234: the heading of the trades table. *)
Definition trades_open : string :=
  "
        <h2>📋 All Trades</h2>
        <table>
            <thead>
                <tr>
                    <th>Order ID</th>
                    <th>Time</th>
                    <th>Symbol</th>
                    <th>Direction</th>
                    <th>Quantity</th>
                    <th>Fill Price</th>
                    <th>Total Value</th>
                    <th>Fee</th>
                </tr>
            </thead>
            <tbody>
".

(** Lines 260-263: the end of the trades table. *)
Definition trades_close : string :=
  "
            </tbody>
        </table>
".

(** Lines 265-268: the text shown when there is no trade. *)
Definition no_trades : string :=
  "
        <h2>📋 All Trades</h2>
        <p style=" +:+ dq +:+ "color: #7f8c8d; text-align: center; padding: 20px;" +:+ dq +:+ ">No trade data available</p>
".

(** Line 426, an entry of a statistics card, part 0. *)
Definition item_0 : string :=
  "<div class=" +:+ dq +:+ "stat-item" +:+ dq +:+ "><span class=" +:+ dq +:+ "stat-label" +:+ dq +:+ ">".

(** Line 426, an entry of a statistics card, part 1. *)
Definition item_1 : string :=
  "</span><span class=" +:+ dq +:+ "stat-value" +:+ dq +:+ ">".

(** Line 426, an entry of a statistics card, part 2. *)
Definition item_2 : string :=
  "</span></div>".

(** Line 449, a row of the table of all statistics, part 0. *)
Definition stat_row_0 : string :=
  "<tr><td>".

(** Line 449, a row of the table of all statistics, part 1. *)
Definition stat_row_1 : string :=
  "</td><td>".

(** Line 449, a row of the table of all statistics, part 2. *)
Definition stat_row_2 : string :=
  "</td></tr>".

(** Lines 235-258: the row of one trade. *)
Definition trade_row (clk : clock) (trade : pyvalue) : outcome string :=
  time ← getitem trade "time";
  dt ← fromtimestamp clk time;
  let trade_time := strftime dt in
  fallback ← get_method trade "symbol" (VStr "N/A");
  symbol ← get_method trade "symbolValue" fallback;
  d ← getitem trade "direction";
  direction ← upper_method d;
  quantity ← getitem trade "fillQuantity";
  fill_price ← getitem trade "fillPrice";
  product ← py_mul quantity fill_price;
  total_value ← py_abs product;
  fee ← get_method trade "orderFeeAmount" (VInt 0);
  order_id ← getitem trade "orderId";
  let direction_class := if String.eqb direction "BUY" then "buy" else "sell" in
  quantity_f ← format_number 0 quantity;
  fill_price_f ← format_number 2 fill_price;
  total_value_f ← format_number 2 total_value;
  fee_f ← format_number 2 fee;
  Ret (row_0 +:+ direction_class +:+ row_1 +:+ py_str order_id +:+ row_2 +:+ trade_time
       +:+ row_3 +:+ py_str symbol +:+ row_4 +:+ direction +:+ row_5 +:+ quantity_f
       +:+ row_6 +:+ fill_price_f +:+ row_7 +:+ total_value_f +:+ row_8 +:+ fee_f
       +:+ row_9).

(** Lines 215-268: the trades table, or the text that stands for it. *)
Definition trades_html_of (clk : clock) (trades : list pyvalue) : outcome string :=
  match trades with
  | _ :: _ =>
      rows ← for_each (fun html trade => row ← trade_row clk trade; Ret (html +:+ row))
                      trades trades_open;
      Ret (rows +:+ trades_close)
  | [] => Ret no_trades
  end.

(** Lines 426, 431, 436: the entries of a statistics card. *)
Definition stat_items (stats : dict) : string :=
  join "" (map (fun '(k, v) => item_0 +:+ k +:+ item_1 +:+ py_str v +:+ item_2) stats).

(** Line 449: the rows of the table of all statistics. *)
Definition stat_rows (stats : dict) : string :=
  join "" (map (fun '(k, v) => stat_row_0 +:+ k +:+ stat_row_1 +:+ py_str v +:+ stat_row_2) stats).

(** Lines 160-461: the text of the report. *)
Definition html_content (clk : clock) (data : pyvalue)
    (equity_chart_b64 drawdown_chart_b64 : string) (trades : list pyvalue)
    (results_folder : option path) : outcome string :=
  stats ← getitem data "statistics";
  algo_config ← getitem data "algorithmConfiguration";
  strategy_name ← strategy_name_of data algo_config results_folder;
  let run_time_str := run_time_of results_folder in
  b ← organize_stats stats;
  trades_html ← trades_html_of clk trades;
  all_stats ← items stats;
  now ← datetime_now clk;
  Ret (page_0 +:+ py_str strategy_name +:+ page_1 +:+ py_str strategy_name
       +:+ page_2 +:+ run_time_str +:+ page_3 +:+ equity_chart_b64
       +:+ page_4 +:+ drawdown_chart_b64
       +:+ page_5 +:+ stat_items (performance_stats b)
       +:+ page_6 +:+ stat_items (risk_stats b)
       +:+ page_7 +:+ stat_items (trade_stats b)
       +:+ page_8 +:+ stat_rows all_stats
       +:+ page_9 +:+ trades_html
       +:+ page_10 +:+ strftime now +:+ page_11).

Definition generate_html_report (clk : clock) (data : pyvalue)
    (equity_chart_b64 drawdown_chart_b64 : string) (trades : list pyvalue)
    (output_file : path) (results_folder : option path) : M unit :=
  html ← lift (html_content clk data equity_chart_b64 drawdown_chart_b64 trades results_folder);
  write_text output_file html;;
  print ("Report generated successfully: " +:+ path_str output_file).

(** ** Finding the results *)

Fixpoint split_slash (l : list ascii) (part : list ascii) : list string :=
  match l with
  | [] => [of_chars (rev part)]
  | c :: l' =>
      if Ascii.eqb c "/" then of_chars (rev part) :: split_slash l' []
      else split_slash l' (c :: part)
  end.

(** The components a relative path is written with: [Path(base) / s] is
    [base ++ path_parts s].  Empty components and [.] are dropped, as
    [pathlib] does; [..] is kept as it is. *)
Definition path_parts (s : string) : path :=
  List.filter (fun part => negb (String.eqb part "" || String.eqb part "."))
              (split_slash (chars s) []).

(** A loop over a list, for its effects. *)
Fixpoint for_all {A : Type} (body : A -> M unit) (l : list A) : M unit :=
  match l with
  | [] => mret tt
  | x :: l' => body x;; for_all body l'
  end.

(** The entries of [l] that are directories, as [[f for f in l if f.is_dir()]]. *)
Definition only_dirs (l : list path) : M (list path) := fun w =>
  (Ret (List.filter
          (fun p => match fs w !! p with Some (FDir _ _) => true | _ => false end) l), w).

(** [p.stat().st_mtime] *)
Definition st_mtime (w : world) (p : path) : Z :=
  match fs w !! p with
  | Some (FDir _ mtime) => mtime
  | _ => 0
  end.

(** A stable sort, by insertion: [x] goes before the first element that
    [before x] accepts. *)
Fixpoint insert_by {A : Type} (before : A -> A -> bool) (x : A) (l : list A) : list A :=
  match l with
  | [] => [x]
  | y :: l' => if before x y then x :: y :: l' else y :: insert_by before x l'
  end.

Definition sort_by {A : Type} (before : A -> A -> bool) (l : list A) : list A :=
  fold_right (insert_by before) [] l.

(** [folders.sort(key=lambda x: x.stat().st_mtime, reverse=True)]: the most
    recent first, folders of equal time in their former order. *)
Definition sort_by_mtime (w : world) (folders : list path) : list path :=
  sort_by (fun x y => st_mtime w y <=? st_mtime w x) folders.

(** [sorted(l)] for the entries of one directory: by name. *)
Definition sorted_paths (l : list path) : list path :=
  sort_by (fun x y => String.leb (path_name x) (path_name y)) l.

Definition get_most_recent_results_folder (results_dir : string) : M path :=
  let results_path := path_parts results_dir in
  found ← path_exists results_path;
  if negb found then raise FileNotFoundError
  else
    (* Get all subdirectories *)
    entries ← iterdir results_path;
    folders ← only_dirs entries;
    match folders with
    | [] => raise FileNotFoundError
    | _ =>
        (* Sort by modification time (most recent first) *)
        sorted ← (fun w => (Ret (sort_by_mtime w folders), w));
        match sorted with
        | first :: _ => mret first
        | [] => raise FileNotFoundError
        end
    end.

Definition find_json_file (folder_path : path) : M path :=
  let folder := folder_path in
  (* Extract strategy name from folder name *)
  let folder_name := path_name folder in
  let strategy_name := strip_stamp folder_name in
  (* Look for {StrategyName}.json *)
  let json_file := folder ++ [strategy_name +:+ ".json"] in
  found ← path_exists json_file;
  if found : bool then mret json_file
  else
    (* Fallback: look for any .json file *)
    json_files ← glob_suffix folder ".json";
    match json_files with
    | [] => raise FileNotFoundError
    | first :: _ =>
        print ("Warning: Expected " +:+ strategy_name +:+ ".json not found, using: "
               +:+ path_name first);;
        mret first
    end.

(** ** The series, the charts and [main]

    [pandas] and [matplotlib] are not part of the embedding: the frame built
    from the values of a series, the figure drawn from a frame and the
    picture saved from a figure are taken as they come. *)
Section Pipeline.

Variables frame figure : Type.
(** Lines 61-65 and 73-75: the frame of a series. *)
Variable equity_frame drawdown_frame : pyvalue -> outcome frame.
Variable create_equity_chart create_drawdown_chart : frame -> outcome figure.
(** Lines 81-85: the picture of a figure, in base 64. *)
Variable savefig_b64 : figure -> outcome string.

Definition extract_equity_series (data : pyvalue) : outcome frame :=
  charts ← getitem data "charts";
  chart ← getitem charts "Strategy Equity";
  series ← getitem chart "series";
  equity ← getitem series "Equity";
  equity_data ← getitem equity "values";
  equity_frame equity_data.

Definition extract_drawdown_series (data : pyvalue) : outcome frame :=
  charts ← getitem data "charts";
  chart ← getitem charts "Drawdown";
  series ← getitem chart "series";
  drawdown ← getitem series "Equity Drawdown";
  drawdown_data ← getitem drawdown "values";
  drawdown_frame drawdown_data.

Definition fig_to_base64 (fig : figure) : outcome string :=
  img_str ← savefig_b64 fig;
  Ret ("data:image/png;base64," +:+ img_str).

(** Lines 512-533: the folder named on the command line, or the most recent. *)
Definition choose_results_folder (argv : list string) : M path :=
  match argv with
  | _ :: folder_name :: _ =>
      (* User specified a folder name *)
      let results_folder := ["Results"] ++ path_parts folder_name in
      found ← path_exists results_folder;
      if found : bool then
        print ("📁 Using specified folder: " +:+ folder_name);;
        mret results_folder
      else
        print ("❌ Error: Folder not found: " +:+ path_str results_folder);;
        print (nl +:+ "Available folders in Results/:");;
        let results_path := ["Results"] in
        present ← path_exists results_path;
        (if present : bool then
           entries ← iterdir results_path;
           for_all (fun folder =>
                      d ← is_dir folder;
                      if d : bool then print ("  - " +:+ path_name folder) else mret tt)
                   (sorted_paths entries)
         else mret tt);;
        raise (SystemExit 1)
  | _ =>
      (* Find most recent backtest *)
      print "🔍 Finding most recent backtest...";;
      results_folder ← get_most_recent_results_folder "Results";
      print ("📁 Found: " +:+ path_name results_folder);;
      mret results_folder
  end.

(** Lines 543-578: from the results file to the report. *)
Definition report (clk : clock) (results_folder json_file : path) : M unit :=
  (* Set output file in the same folder *)
  let output_file := results_folder ++ ["report.html"] in
  print "Loading backtest results...";;
  data ← load_results json_file;
  print "Extracting equity curve...";;
  equity_df ← lift (extract_equity_series data);
  print "Extracting drawdown data...";;
  drawdown_df ← lift (extract_drawdown_series data);
  print "Generating charts...";;
  equity_fig ← lift (create_equity_chart equity_df);
  equity_chart_b64 ← lift (fig_to_base64 equity_fig);
  drawdown_fig ← lift (create_drawdown_chart drawdown_df);
  drawdown_chart_b64 ← lift (fig_to_base64 drawdown_fig);
  print "Loading trade data...";;
  trades ← load_order_events results_folder;
  print ("Found " +:+ int_str (Z.of_nat (length trades)) +:+ " trades");;
  print "Generating HTML report...";;
  generate_html_report clk data equity_chart_b64 drawdown_chart_b64 trades output_file
                       (Some results_folder);;
  print (nl +:+ "Report Summary:");;
  start_equity ← lift (stats ← getitem data "statistics"; v ← getitem stats "Start Equity";
                       py_float v);
  print ("  Start Equity: $" +:+ format_f true 2 start_equity);;
  end_equity ← lift (stats ← getitem data "statistics"; v ← getitem stats "End Equity";
                     py_float v);
  print ("  End Equity: $" +:+ format_f true 2 end_equity);;
  net_profit ← lift (stats ← getitem data "statistics"; getitem stats "Net Profit");
  print ("  Net Profit: " +:+ py_str net_profit);;
  sharpe ← lift (stats ← getitem data "statistics"; getitem stats "Sharpe Ratio");
  print ("  Sharpe Ratio: " +:+ py_str sharpe);;
  drawdown ← lift (stats ← getitem data "statistics"; getitem stats "Drawdown");
  print ("  Max Drawdown: " +:+ py_str drawdown);;
  print (nl +:+ "✅ Report saved to: " +:+ path_str output_file);;
  print "   Open this file in your browser to view the full report!".

Definition main (clk : clock) (argv : list string) : M unit :=
  (* Parse command-line arguments *)
  results_folder ← choose_results_folder argv;
  (* Find JSON file in the folder *)
  json_file ←
    try_catch
      (json_file ← find_json_file results_folder;
       print ("📄 Using results file: " +:+ path_name json_file);;
       mret json_file)
      (fun e =>
         match e with
         | FileNotFoundError => print_exn "❌ Error: " e;; raise (SystemExit 1)
         | _ => raise e
         end);
  report clk results_folder json_file.

End Pipeline.

(** ** A sample run

    The results of a strategy named BuyAndHold, run on 2026-01-01 at
    22:01:49, on a machine whose local time is UTC. *)

Definition sample_folder : path := ["Results"; "BuyAndHold-20260101-220149"].

Definition sample_statistics : dict :=
  [("Sharpe Ratio", VStr "1.2345"); ("Start Equity", VStr "100000");
   ("End Equity", VInt 120000); ("Net Profit", VStr "20%"); ("Drawdown", VStr "5%")].

(** A results document with no chart. *)
Definition sample_doc_no_charts : pyvalue :=
  VDict [("statistics", VDict sample_statistics);
         ("algorithmConfiguration", VDict [("name", VStr "Algo")])].

Definition sample_doc : pyvalue :=
  VDict [("statistics", VDict sample_statistics);
         ("algorithmConfiguration", VDict [("name", VStr "Algo")]);
         ("charts",
          VDict [("Strategy Equity",
                  VDict [("series", VDict [("Equity", VDict [("values", VList [])])])]);
                 ("Drawdown",
                  VDict [("series",
                          VDict [("Equity Drawdown", VDict [("values", VList [])])])])])].

Definition sample_trade : pyvalue :=
  VDict [("status", VStr "filled"); ("time", VInt 1388586600); ("symbol", VStr "XOM");
         ("direction", VStr "buy"); ("fillQuantity", VInt 100);
         ("fillPrice", VFloat (float_of_decimal false 10125 (-2))); ("orderId", VInt 1)].

Definition sample_events : list pyvalue :=
  [VDict [("status", VStr "submitted"); ("orderId", VInt 1)];
   sample_trade;
   VDict [("status", VStr "Filled"); ("orderId", VInt 2)];
   sample_trade].

(** The folder of the sample run, holding the results [doc] and the file
    [events] of order events, if any. *)
Definition sample_world (doc : pyvalue) (events : option fnode) : world :=
  {| fs :=
       list_to_map
         ([([], FDir ["Results"] 0);
           (["Results"], FDir ["BuyAndHold-20260101-220149"] 0);
           (sample_folder,
            FDir ("BuyAndHold.json"
                  :: match events with
                     | Some _ => ["BuyAndHold-order-events.json"]
                     | None => []
                     end) 0);
           (sample_folder ++ ["BuyAndHold.json"], FJson doc)]
          ++ match events with
             | Some node => [(sample_folder ++ ["BuyAndHold-order-events.json"], node)]
             | None => []
             end);
     console := [] |}.

Definition utc_clock (now : Z) : clock := {| time_now := now; utc_offset := fun _ => 0 |}.

(** * The notions the properties speak of *)

(** What the report shows for a statistic. *)
Definition display (key : string) (value : pyvalue) : pyvalue :=
  match format_stat_value key value with
  | Ret shown => shown
  | Raise _ => value
  end.

(** The float written [1.2345]. *)
Definition f_1_2345 : spec_float := float_of_decimal false 12345 (-4).

(** The bucket of a statistic, as the design states it: performance when
    the lowercased name holds one of 'return', 'profit', 'alpha', 'beta',
    'information'; otherwise risk when it holds one of 'sharpe', 'sortino',
    'drawdown', 'variance', 'deviation', 'risk'; otherwise trade. *)
Inductive bucket : Type := Performance | Risk | Trade.

Global Instance bucket_eq_dec : EqDecision bucket.
Proof. solve_decision. Defined.

Definition classify (key : string) : bucket :=
  if any_in performance_keywords (lower key) then Performance
  else if any_in risk_keywords (lower key) then Risk
  else Trade.

Definition keys (d : dict) : list string := map fst d.



(** The priority chain as the design states it: the explicit field of the
    document if present, else the name derived from the results folder,
    else the name of the algorithm configuration, else "N/A". *)
Definition stated_strategy_name (data algo_config : dict) (results_folder : option path)
  : pyvalue :=
  match dict_get data "strategyName", dict_get data "strategy-name" with
  | Some name, _ => name
  | None, Some name => name
  | None, None =>
      match results_folder with
      | Some folder => VStr (strip_stamp (path_name folder))
      | None =>
          match dict_get algo_config "name" with
          | Some name => name
          | None => VStr "N/A"
          end
      end
  end.

(** The explicit field: [strategyName], and [strategy-name] only when the
    document has no [strategyName]. *)
Definition explicit_name (data : dict) : pyvalue :=
  match dict_get data "strategyName" with
  | Some name => name
  | None =>
      match dict_get data "strategy-name" with
      | Some name => name
      | None => VNone
      end
  end.

Definition configured_name (algo_config : dict) : pyvalue :=
  match dict_get algo_config "name" with
  | Some name => name
  | None => VStr "N/A"
  end.

(** The chain as the code runs it: a source counts when it is not empty,
    but for the name of the configuration, which counts when present. *)
Definition resolved_strategy_name (data algo_config : dict) (results_folder : option path)
  : pyvalue :=
  if truthy (explicit_name data) then explicit_name data
  else
    match results_folder with
    | Some folder =>
        if String.eqb (strip_stamp (path_name folder)) "" then configured_name algo_config
        else VStr (strip_stamp (path_name folder))
    | None => configured_name algo_config
    end.

(** A character is one of 256: case analysis by its bits. *)
Ltac by_bits c := destruct c as [[] [] [] [] [] [] [] []].







(** An entry of the order events whose status is the string "filled". *)
Definition is_filled (e : pyvalue) : bool :=
  match e with
  | VDict d =>
      match dict_get d "status" with
      | Some (VStr status) => String.eqb status "filled"
      | _ => false
      end
  | _ => false
  end.

Definition is_object (e : pyvalue) : Prop :=
  match e with
  | VDict _ => True
  | _ => False
  end.

(** The file the order events are read from: the one named after the
    strategy if there is one, else the first of the folder whose name ends
    with [-order-events.json]. *)
Definition order_events_file (w : world) (folder : path) : option path :=
  let named := folder ++ [strip_stamp (path_name folder) +:+ "-order-events.json"] in
  match fs w !! named with
  | Some _ => Some named
  | None =>
      match fs w !! folder with
      | Some (FDir entries _) =>
          head (map (fun name => folder ++ [name])
                    (List.filter (ends_with "-order-events.json") entries))
      | _ => None
      end
  end.

(** The world after one more line on the console. *)
Definition printed (w : world) (l : line) : world :=
  {| fs := fs w; console := console w ++ [l] |}.

(** The value found in a document along a path of keys, each step through
    an object that has the key. *)
Fixpoint lookup_path (v : pyvalue) (keys : list string) : option pyvalue :=
  match keys with
  | [] => Some v
  | k :: keys' =>
      match v with
      | VDict d =>
          match dict_get d k with
          | Some x => lookup_path x keys'
          | None => None
          end
      | _ => None
      end
  end.

Definition equity_path : list string :=
  ["charts"; "Strategy Equity"; "series"; "Equity"; "values"].

(** The exceptions of a missing path: a key that an object does not have,
    or a value on the way that is not an object. *)
Definition schema_missing (e : exn) : Prop :=
  match e with
  | KeyError _ | TypeError => True
  | _ => False
  end.

(** A chain of subscripts, then what is done with the value found. *)
Fixpoint subscripts {B : Type} (v : pyvalue) (keys : list string)
    (k : pyvalue -> outcome B) : outcome B :=
  match keys with
  | [] => k v
  | key :: keys' => x ← getitem v key; subscripts x keys' k
  end.

(** Code that reads the world and prints, and writes no file. *)
Definition keeps_files {A : Type} (m : M A) : Prop :=
  forall w, fs (snd (m w)) = fs w.

(** A string of ASCII characters: one on which the embedding of
    [str.lower], [str.upper] and [\d] is exact. *)
Definition is_ascii (s : string) : bool :=
  forallb (fun c => code c <? 128) (chars s).




(** The fields of a trade that the table subscripts. *)
Definition required_fields : list string :=
  ["time"; "direction"; "fillQuantity"; "fillPrice"; "orderId"].

(** A trade that is no object, or lacks one of the fields. *)
Definition incomplete (trade : pyvalue) : Prop :=
  match trade with
  | VDict d => exists field, In field required_fields /\ dict_get d field = None
  | _ => True
  end.

Definition drawdown_path : list string :=
  ["charts"; "Drawdown"; "series"; "Equity Drawdown"; "values"].


(** The trades of a folder: what [load_order_events] returns for it. *)
Definition trades_of (w : world) (folder : path) : list pyvalue :=
  match fst (load_order_events folder w) with
  | Ret trades => trades
  | Raise _ => []
  end.

(** The statistics that the summary printed at the end subscripts. *)
Definition summary_statistics : list string :=
  ["Start Equity"; "End Equity"; "Net Profit"; "Sharpe Ratio"; "Drawdown"].

(** * Properties *)

(** ** The statistic formatter *)

Section FormatStatValue.

Implicit Types (key : string) (value : pyvalue).

Lemma try_except_ret {A : Type} (body : outcome A) (a : A) :
  exists r, try_except body (Ret a) = Ret r.
Proof. destruct body; simpl; eauto. Qed.

(** The formatter never raises. *)
Lemma format_stat_value_total key value :
  format_stat_value key value = Ret (display key value).
Proof.
  unfold display.
  assert (exists r, format_stat_value key value = Ret r) as [r ->]; [|reflexivity].
  unfold format_stat_value.
  destruct (any_in percentage_keywords (lower key)); [apply try_except_ret|].
  destruct (any_in currency_keywords (lower key)); apply try_except_ret.
Qed.

Lemma format_percentage_numeric key value f :
  any_in percentage_keywords (lower key) = true ->
  truthy value = true -> py_float value = Ret f ->
  format_stat_value key value = Ret (VStr (format_percent 2 f)).
Proof.
  intros Hkey Htrue Hfloat. unfold format_stat_value.
  rewrite Hkey, Htrue, Hfloat. reflexivity.
Qed.

Lemma format_percentage_empty key value :
  any_in percentage_keywords (lower key) = true ->
  truthy value = false ->
  format_stat_value key value = Ret (VStr "0.00%").
Proof.
  intros Hkey Hfalse. unfold format_stat_value.
  rewrite Hkey, Hfalse. reflexivity.
Qed.

(** The digits written are those of the nearest integer: the quotient
    rounded is at most half a unit away from the exact one. *)
Lemma div_half_even_nearest (n d : Z) :
  0 <= n -> 0 < d -> 2 * Z.abs (div_half_even n d * d - n) <= d.
Proof.
  intros Hn Hd. unfold div_half_even.
  pose proof (Z.div_mod n d ltac:(lia)) as Hdiv.
  pose proof (Z.mod_pos_bound n d Hd) as Hmod.
  destruct (Z.compare_spec (2 * (n mod d)) d) as [Heq|Hlt|Hgt];
    [destruct (Z.even (n / d))|..]; nia.
Qed.

End FormatStatValue.

(** C1, as the code has it: the name "Sharpe Ratio" contains "ratio", a
    percentage keyword, so the value 1.2345, given as a string or as a
    number, is shown as "123.45%"; the plain rendering "1.2345" is what
    the same value gets under a name with no formatting keyword. *)
Theorem sharpe_ratio_is_a_percentage :
  any_in percentage_keywords (lower "Sharpe Ratio") = true
  /\ format_stat_value "Sharpe Ratio" (VStr "1.2345") = Ret (VStr "123.45%")
  /\ format_stat_value "Sharpe Ratio" (VFloat f_1_2345) = Ret (VStr "123.45%")
  /\ format_stat_value "Sharpe" (VStr "1.2345") = Ret (VStr "1.2345")
  /\ format_stat_value "Sharpe" (VFloat f_1_2345) = Ret (VStr "1.2345").
Proof. repeat split; vm_compute; reflexivity. Qed.

(** C1 fails as stated: for "Sharpe Ratio" and 1.2345 the formatter does not
    return "1.2345". *)
Lemma sharpe_ratio_not_plain :
  format_stat_value "Sharpe Ratio" (VFloat f_1_2345) = Ret (VStr "123.45%")
  /\ String.eqb "123.45%" "1.2345" = false.
Proof. split; vm_compute; reflexivity. Qed.

(** C4: under a name that holds a percentage keyword, a value that [float]
    accepts is shown as a hundred times the value, with two decimals and a
    percent sign, and an empty or zero value (one that is false: [0], [0.0],
    the empty string, [null], an empty container) is shown as "0.00%"; the
    formatter does not raise.  A value that [float] reads as zero gives
    "0.00%" too. *)
Theorem percentage_format key value :
  any_in percentage_keywords (lower key) = true ->
  (forall f, truthy value = true -> py_float value = Ret f ->
     format_stat_value key value
     = Ret (VStr (format_f false 2 (SFmul prec emax f f100) +:+ "%")))
  /\ (truthy value = false -> format_stat_value key value = Ret (VStr "0.00%"))
  /\ (py_float value = Ret (S754_zero false) ->
      format_stat_value key value = Ret (VStr "0.00%")).
Proof.
  intros Hkey. split; [|split].
  - intros f Htrue Hfloat. apply format_percentage_numeric; assumption.
  - apply format_percentage_empty; assumption.
  - intros Hzero. destruct (truthy value) eqn:Htrue.
    + rewrite (format_percentage_numeric key value _ Hkey Htrue Hzero). reflexivity.
    + apply format_percentage_empty; assumption.
Qed.

Lemma percentage_format_witness :
  format_stat_value "Win Rate" (VStr "0.55") = Ret (VStr "55.00%")
  /\ format_stat_value "Win Rate" (VInt 0) = Ret (VStr "0.00%")
  /\ format_stat_value "Win Rate" (VStr "") = Ret (VStr "0.00%")
  /\ format_stat_value "Win Rate" (VStr "0") = Ret (VStr "0.00%").
Proof.
  pose proof (percentage_format "Win Rate") as H.
  split; [|split; [|split]].
  - exact (proj1 (H (VStr "0.55") eq_refl) (float_of_decimal false 55 (-2)) eq_refl eq_refl).
  - exact (proj1 (proj2 (H (VInt 0) eq_refl)) eq_refl).
  - exact (proj1 (proj2 (H (VStr "") eq_refl)) eq_refl).
  - exact (proj2 (proj2 (H (VStr "0") eq_refl)) eq_refl).
Defined.

(** C5, as the code has it: for a value that [float] refuses the formatter
    never raises; it returns the value as it is, except under a name that
    holds a percentage keyword when the value is empty (false), where it
    returns "0.00%". *)
Theorem not_numeric_passthrough key value e :
  py_float value = Raise e ->
  format_stat_value key value
  = Ret (if any_in percentage_keywords (lower key) && negb (truthy value)
         then VStr "0.00%" else value).
Proof.
  intros Hfloat. unfold format_stat_value.
  destruct (any_in percentage_keywords (lower key)); cbn [andb].
  - destruct (truthy value); cbn [negb]; [rewrite Hfloat|]; reflexivity.
  - destruct (any_in currency_keywords (lower key)); rewrite Hfloat; reflexivity.
Qed.

Lemma not_numeric_passthrough_witness :
  py_float (VStr "20%") = Raise ValueError
  /\ format_stat_value "Net Profit" (VStr "20%") = Ret (VStr "20%")
  /\ format_stat_value "Win Rate" (VStr "55%") = Ret (VStr "55%")
  /\ format_stat_value "End Equity" VNone = Ret VNone.
Proof.
  split; [reflexivity|split; [|split]].
  - exact (not_numeric_passthrough "Net Profit" (VStr "20%") ValueError eq_refl).
  - exact (not_numeric_passthrough "Win Rate" (VStr "55%") ValueError eq_refl).
  - exact (not_numeric_passthrough "End Equity" VNone TypeError eq_refl).
Defined.

(** C5 fails as stated: the empty string fails the coercion, and under
    "Win Rate" it is not returned as it is. *)
Lemma empty_percentage_not_passed_through :
  py_float (VStr "") = Raise ValueError
  /\ format_stat_value "Win Rate" (VStr "") = Ret (VStr "0.00%")
  /\ String.eqb "0.00%" "" = false.
Proof. repeat split; vm_compute; reflexivity. Qed.

(** ** The statistic buckets *)

Section Buckets.

Implicit Types (stats d : dict) (c : bucket) (k : string) (v : pyvalue).





Lemma for_each_cons {S A : Type} (body : S -> A -> outcome S) x l s :
  for_each body (x :: l) s = (s' ← body s x; for_each body l s').
Proof. reflexivity. Qed.




End Buckets.



(** ** The strategy name *)

Lemma truthy_VStr (s : string) : truthy (VStr s) = negb (String.eqb s "").
Proof. destruct s; reflexivity. Qed.

(** C9, as the code has it: the strategy name is the explicit field of the
    document ([strategyName], or [strategy-name] when the document has no
    [strategyName]) if it is not empty; else the name derived from the
    results folder, if a folder is given and the derived name is not empty;
    else the name of the algorithm configuration if it has one, whatever it
    is; else "N/A". *)
Theorem strategy_name_chain (data algo_config : dict) (results_folder : option path) :
  strategy_name_of (VDict data) (VDict algo_config) results_folder
  = Ret (resolved_strategy_name data algo_config results_folder).
Proof.
  unfold strategy_name_of, resolved_strategy_name, explicit_name, configured_name.
  cbn [contains mbind outcome_bind].
  assert (Hget : get_method (VDict algo_config) "name" (VStr "N/A")
                 = Ret (match dict_get algo_config "name" with
                        | Some name => name | None => VStr "N/A" end)).
  { unfold get_method. destruct (dict_get algo_config "name"); reflexivity. }
  assert (Htail : forall name : pyvalue,
    (let strategy_name :=
       match results_folder with
       | Some folder =>
           if negb (truthy name) then VStr (strip_stamp (path_name folder)) else name
       | None => name
       end in
     if negb (truthy strategy_name)
     then get_method (VDict algo_config) "name" (VStr "N/A")
     else Ret strategy_name)
    = Ret (if truthy name then name
           else match results_folder with
                | Some folder =>
                    if String.eqb (strip_stamp (path_name folder)) ""
                    then match dict_get algo_config "name" with
                         | Some n => n | None => VStr "N/A" end
                    else VStr (strip_stamp (path_name folder))
                | None => match dict_get algo_config "name" with
                          | Some n => n | None => VStr "N/A" end
                end)).
  { intros name. cbv zeta. destruct results_folder as [folder|].
    - destruct (truthy name) eqn:Hname; cbn [negb].
      + rewrite Hname. reflexivity.
      + rewrite truthy_VStr.
        destruct (String.eqb (strip_stamp (path_name folder)) ""); cbn [negb];
          [exact Hget|reflexivity].
    - destruct (truthy name) eqn:Hname; cbn [negb]; [reflexivity|exact Hget]. }
  unfold dict_has at 1.
  destruct (dict_get data "strategyName") as [name|] eqn:H1.
  - unfold getitem. rewrite H1. apply Htail.
  - cbn [mbind outcome_bind]. unfold dict_has.
    destruct (dict_get data "strategy-name") as [name|] eqn:H2.
    + unfold getitem. rewrite H2. apply Htail.
    + apply (Htail VNone).
Qed.

(** C9 fails as stated: an explicit field that is present but empty is
    not the name shown; the name derived from the folder is. *)
Lemma empty_explicit_name_is_skipped :
  strategy_name_of (VDict [("strategyName", VStr "")]) (VDict [("name", VStr "Algo")])
                   (Some ["Results"; "BuyAndHold-20260101-220149"])
  = Ret (VStr "BuyAndHold")
  /\ stated_strategy_name [("strategyName", VStr "")] [("name", VStr "Algo")]
                          (Some ["Results"; "BuyAndHold-20260101-220149"])
     = VStr ""
  /\ String.eqb "BuyAndHold" "" = false.
Proof. repeat split; vm_compute; reflexivity. Qed.

(** ** The folder naming convention *)

Section FolderName.

Implicit Types (l base rest : list ascii) (s date time : string).


Lemma chars_of_chars l : chars (of_chars l) = l.
Proof. apply list_ascii_of_string_of_list_ascii. Qed.







(** What a match of the pattern is made of. *)
Lemma match_stamp_Some l (d8 d6 : list ascii) rest :
  match_stamp l = Some (d8, d6, rest) ->
  l = "-"%char :: d8 ++ "-"%char :: d6 ++ rest
  /\ length d8 = 8%nat /\ length d6 = 6%nat.
Proof.
  unfold match_stamp. destruct l as [|c l1]; [discriminate|].
  by_bits c; try discriminate.
  destruct (drop 8 l1) as [|c l2] eqn:Hdrop; [discriminate|].
  by_bits c; try discriminate.
  destruct ((length (take 8 l1) =? 8)%nat) eqn:H8; [|discriminate].
  destruct (forallb is_digit (take 8 l1)); [|discriminate].
  destruct ((length (take 6 l2) =? 6)%nat) eqn:H6; [|discriminate].
  destruct (forallb is_digit (take 6 l2)); [|discriminate].
  cbn [andb]. intros [= <- <- <-].
  apply Nat.eqb_eq in H8, H6. repeat split; try assumption.
  rewrite (take_drop 6 l2), <- Hdrop, (take_drop 8 l1). reflexivity.
Qed.





End FolderName.




(** ** The trade filter *)

Section TradeFilter.

Implicit Types (events : list pyvalue) (w : world) (folder file : path).

Lemma filled_objects events :
  Forall is_object events -> filled events = Ret (List.filter is_filled events).
Proof.
  induction 1 as [|e events He _ IH]; [reflexivity|].
  destruct e as [| | | | |?|d]; try contradiction.
  cbn [filled List.filter]. rewrite IH. unfold get_method, is_filled.
  destruct (dict_get d "status") as [[]|]; reflexivity.
Qed.

(** An entry that is not an object makes the whole list fail. *)
Lemma filled_not_objects events :
  ~ Forall is_object events -> filled events = Raise AttributeError.
Proof.
  induction events as [|e events IH]; intros Hnot.
  - destruct Hnot. constructor.
  - cbn [filled]. destruct e as [| | | | |?|d]; try reflexivity.
    unfold get_method. rewrite IH.
    + destruct (dict_get d "status"); reflexivity.
    + intros Hall. apply Hnot. constructor; [exact I|exact Hall].
Qed.

(** What [load_order_events] does, case by case. *)
Lemma load_order_events_cases folder w :
  load_order_events folder w =
  match order_events_file w folder with
  | None => (Ret [], printed w (Line "⚠️  Warning: No order events file found"))
  | Some file =>
      match load_json file w with
      | (Ret events, _) =>
          match l ← iterate events; filled l with
          | Ret trades => (Ret trades, w)
          | Raise e =>
              (Ret [], printed w (LineExn "⚠️  Warning: Could not load order events: " e))
          end
      | (Raise e, _) =>
          (Ret [], printed w (LineExn "⚠️  Warning: Could not load order events: " e))
      end
  end.
Proof.
  unfold load_order_events, order_events_file.
  unfold mbind at 1. unfold M_bind at 1. unfold path_exists at 1.
  destruct (fs w !! (folder ++ [strip_stamp (path_name folder) +:+ "-order-events.json"]))
    as [node|] eqn:Hnamed.
  - unfold mret, M_ret, try_catch, mbind, M_bind, lift, load_json.
    destruct (fs w !! _) as [[events| |]|]; try reflexivity;
      destruct (iterate events ≫= _); reflexivity.
  - unfold mbind at 1. unfold M_bind at 1. unfold mbind at 1. unfold M_bind at 1.
    unfold glob_suffix at 1.
    destruct (fs w !! folder) as [[| |entries mtime]|]; try reflexivity.
    destruct (List.filter _ entries) as [|name names]; [reflexivity|].
    cbn [map head].
    unfold mret, M_ret, try_catch, mbind, M_bind, lift, load_json.
    destruct (fs w !! (folder ++ [name])) as [[events| |]|]; try reflexivity;
      destruct (iterate events ≫= _); reflexivity.
Qed.

End TradeFilter.

(** C3: when the order events file holds a list of objects, the trades
    loaded are the entries whose status is the string "filled", all of
    them, in the order of the file; nothing is printed.  Two filled
    entries with one order id are both kept: the filter does not look at
    the id. *)
Theorem trades_are_the_filled_events (folder file : path) (events : list pyvalue) (w : world) :
  order_events_file w folder = Some file ->
  fs w !! file = Some (FJson (VList events)) ->
  Forall is_object events ->
  load_order_events folder w = (Ret (List.filter is_filled events), w).
Proof.
  intros Hfile Hload Hobjects.
  rewrite load_order_events_cases, Hfile. unfold load_json. rewrite Hload.
  cbn [iterate mbind outcome_bind]. rewrite filled_objects by assumption. reflexivity.
Qed.

Lemma trades_are_the_filled_events_witness :
  load_order_events sample_folder (sample_world sample_doc (Some (FJson (VList sample_events))))
  = (Ret [sample_trade; sample_trade],
     sample_world sample_doc (Some (FJson (VList sample_events)))).
Proof.
  refine (trades_are_the_filled_events sample_folder
            (sample_folder ++ ["BuyAndHold-order-events.json"]) sample_events
            (sample_world sample_doc (Some (FJson (VList sample_events)))) _ _ _).
  - vm_compute. reflexivity.
  - vm_compute. reflexivity.
  - repeat constructor.
Defined.

(** ** A report without trades *)

Section NoTrades.

Implicit Types (w : world) (folder file p : path) (clk : clock).

Lemma string_app_assoc (a b c : string) : (a +:+ b) +:+ c = a +:+ (b +:+ c).
Proof.
  induction a as [|x a IH]; [reflexivity|].
  change (String x a +:+ b) with (String x (a +:+ b)).
  change (String x (a +:+ b) +:+ c) with (String x ((a +:+ b) +:+ c)).
  rewrite IH. reflexivity.
Qed.

(** The loop over the statistics returns, whatever they are. *)
Lemma organize_total (stats : dict) : forall b, exists b', for_each organize_step stats b = Ret b'.
Proof.
  induction stats as [|[k v] stats IH]; intros b; [eexists; reflexivity|].
  rewrite for_each_cons.
  assert (exists b1, organize_step b (k, v) = Ret b1) as [b1 ->].
  { unfold organize_step. rewrite format_stat_value_total.
    destruct (any_in performance_keywords (lower k));
      [|destruct (any_in risk_keywords (lower k))]; eexists; reflexivity. }
  apply IH.
Qed.

(** The strategy name is found, whatever the document holds. *)
Lemma strategy_name_of_returns (data algo : dict) (results_folder : option path) :
  exists name, strategy_name_of (VDict data) (VDict algo) results_folder = Ret name.
Proof.
  assert (Hget : exists name, get_method (VDict algo) "name" (VStr "N/A") = Ret name).
  { unfold get_method. destruct (dict_get algo "name"); eexists; reflexivity. }
  assert (Htail : forall found : pyvalue,
    exists name,
      (let strategy_name :=
         match results_folder with
         | Some folder =>
             if negb (truthy found) then VStr (strip_stamp (path_name folder)) else found
         | None => found
         end in
       if negb (truthy strategy_name)
       then get_method (VDict algo) "name" (VStr "N/A")
       else Ret strategy_name) = Ret name).
  { intros found. cbv zeta.
    destruct (negb (truthy _)); [exact Hget|eexists; reflexivity]. }
  unfold strategy_name_of, contains, getitem, dict_has. cbn [mbind outcome_bind].
  destruct (dict_get data "strategyName"); [apply Htail|].
  cbn [mbind outcome_bind].
  destruct (dict_get data "strategy-name"); apply Htail.
Qed.

(** The page of a report without trades: the text of [no_trades] stands
    where the table would. *)
Lemma html_content_no_trades clk (d stats algo : dict) (equity drawdown : string)
    (results_folder : option path) (now : datetime) :
  dict_get d "statistics" = Some (VDict stats) ->
  dict_get d "algorithmConfiguration" = Some (VDict algo) ->
  datetime_now clk = Ret now ->
  exists before,
    html_content clk (VDict d) equity drawdown [] results_folder
    = Ret (before +:+ no_trades +:+ page_10 +:+ strftime now +:+ page_11).
Proof.
  intros Hstats Halgo Hnow. unfold html_content, getitem.
  rewrite Hstats, Halgo. cbn [mbind outcome_bind].
  destruct (strategy_name_of_returns d algo results_folder) as [strategy_name ->].
  cbn [mbind outcome_bind].
  unfold organize_stats. cbn [items mbind outcome_bind].
  destruct (organize_total stats no_stats) as [b ->].
  cbn [trades_html_of mbind outcome_bind]. rewrite Hnow.
  set (name := py_str strategy_name).
  exists (page_0 +:+ name +:+ page_1 +:+ name +:+ page_2 +:+ run_time_of results_folder
          +:+ page_3 +:+ equity +:+ page_4 +:+ drawdown
          +:+ page_5 +:+ stat_items (performance_stats b)
          +:+ page_6 +:+ stat_items (risk_stats b)
          +:+ page_7 +:+ stat_items (trade_stats b)
          +:+ page_8 +:+ stat_rows stats +:+ page_9).
  rewrite !string_app_assoc. reflexivity.
Qed.

Lemma write_text_creates p (text : string) w (entries : list string) (mtime : Z) :
  fs w !! removelast p = Some (FDir entries mtime) ->
  (forall e m, fs w !! p <> Some (FDir e m)) ->
  exists w',
    write_text p text w = (Ret tt, w')
    /\ fs w' !! p = Some (FText text)
    /\ console w' = console w.
Proof.
  intros Hparent Hfile. unfold write_text. rewrite Hparent.
  destruct (fs w !! p) as [[| |e m]|] eqn:Hp;
    try (eexists; split; [reflexivity|]; split; [apply lookup_insert_eq|reflexivity]).
  destruct (Hfile e m). reflexivity.
Qed.

End NoTrades.

(** C7: when the folder has no order events file, or when the file found
    does not hold JSON, loading the trades does not raise: it returns the
    empty list and prints a warning.  With an empty list of trades the
    page is composed, with the text "No trade data available" where the
    table of trades would stand, and it is written to the output file. *)
Theorem missing_order_events_is_not_fatal (folder : path) (w : world) :
  (order_events_file w folder = None ->
   load_order_events folder w
   = (Ret [], printed w (Line "⚠️  Warning: No order events file found")))
  /\ (forall file,
        order_events_file w folder = Some file ->
        (forall doc, fs w !! file <> Some (FJson doc)) ->
        exists e,
          load_order_events folder w
          = (Ret [], printed w (LineExn "⚠️  Warning: Could not load order events: " e)))
  /\ (forall (clk : clock) (d stats algo : dict) (equity drawdown : string)
             (output_file : path) (results_folder : option path)
             (now : datetime) (entries : list string) (mtime : Z),
        dict_get d "statistics" = Some (VDict stats) ->
        dict_get d "algorithmConfiguration" = Some (VDict algo) ->
        datetime_now clk = Ret now ->
        fs w !! removelast output_file = Some (FDir entries mtime) ->
        (forall e m, fs w !! output_file <> Some (FDir e m)) ->
        exists before w',
          generate_html_report clk (VDict d) equity drawdown [] output_file results_folder w
          = (Ret tt, w')
          /\ fs w' !! output_file
             = Some (FText (before +:+ no_trades +:+ page_10 +:+ strftime now +:+ page_11))).
Proof.
  split; [|split].
  - intros Hnone. rewrite load_order_events_cases, Hnone. reflexivity.
  - intros file Hfile Hbad. rewrite load_order_events_cases, Hfile. unfold load_json.
    destruct (fs w !! file) as [[doc| |]|] eqn:Hnode; try (eexists; reflexivity).
    destruct (Hbad doc). reflexivity.
  - intros clk d stats algo equity drawdown output_file results_folder now entries mtime
           Hstats Halgo Hnow Hparent Hfile.
    destruct (html_content_no_trades clk d stats algo equity drawdown results_folder now
                Hstats Halgo Hnow) as [before Hhtml].
    destruct (write_text_creates output_file
                (before +:+ no_trades +:+ page_10 +:+ strftime now +:+ page_11)
                w entries mtime Hparent Hfile) as (w' & Hwrite & Hlookup & _).
    exists before. eexists. unfold generate_html_report.
    unfold mbind at 1. unfold M_bind at 1. unfold lift. rewrite Hhtml.
    unfold mbind at 1. unfold M_bind at 1. rewrite Hwrite.
    split; [reflexivity|]. exact Hlookup.
Qed.

Lemma missing_order_events_witness :
  load_order_events sample_folder (sample_world sample_doc None)
  = (Ret [], printed (sample_world sample_doc None)
                     (Line "⚠️  Warning: No order events file found"))
  /\ (exists e,
        load_order_events sample_folder (sample_world sample_doc (Some (FText "not json")))
        = (Ret [], printed (sample_world sample_doc (Some (FText "not json")))
                           (LineExn "⚠️  Warning: Could not load order events: " e)))
  /\ (exists before w',
        generate_html_report (utc_clock 1767304909) sample_doc "" "" []
                             (sample_folder ++ ["report.html"]) (Some sample_folder)
                             (sample_world sample_doc None)
        = (Ret tt, w')
        /\ fs w' !! (sample_folder ++ ["report.html"])
           = Some (FText (before +:+ no_trades +:+ page_10 +:+ "2026-01-01 22:01:49"
                          +:+ page_11))).
Proof.
  split; [|split].
  - apply (missing_order_events_is_not_fatal sample_folder (sample_world sample_doc None)).
    vm_compute. reflexivity.
  - apply (proj1 (proj2 (missing_order_events_is_not_fatal sample_folder
                           (sample_world sample_doc (Some (FText "not json")))))
             (sample_folder ++ ["BuyAndHold-order-events.json"])).
    + vm_compute. reflexivity.
    + intros doc. vm_compute. discriminate.
  - refine (proj2 (proj2 (missing_order_events_is_not_fatal sample_folder
                            (sample_world sample_doc None)))
              (utc_clock 1767304909) _ sample_statistics [("name", VStr "Algo")] "" ""
              (sample_folder ++ ["report.html"]) (Some sample_folder)
              {| year := 2026; month := 1; day := 1; hour := 22; minute := 1; second := 49 |}
              ["BuyAndHold.json"] 0 _ _ _ _ _).
    + reflexivity.
    + reflexivity.
    + vm_compute. reflexivity.
    + vm_compute. reflexivity.
    + intros e m. vm_compute. discriminate.
Defined.

(** ** Composing the report twice *)

Section Idempotence.

Implicit Types (w : world) (p : path) (text : string).

Lemma existsb_eqb_app (name : string) (entries : list string) :
  existsb (String.eqb name) (entries ++ [name]) = true.
Proof.
  rewrite existsb_app. cbn. rewrite String.eqb_refl. apply orb_true_iff. right. reflexivity.
Qed.

(** The two ways a write ends. *)
Lemma write_text_cases p text w :
  (exists e, write_text p text w = (Raise e, w))
  \/ (exists entries mtime,
        fs w !! removelast p = Some (FDir entries mtime)
        /\ removelast p <> p
        /\ write_text p text w
           = (Ret tt,
              {| fs := <[p := FText text]>
                         (<[removelast p :=
                              FDir (if existsb (String.eqb (path_name p)) entries
                                    then entries else entries ++ [path_name p]) mtime]>
                            (fs w));
                 console := console w |})).
Proof.
  unfold write_text.
  destruct (fs w !! p) as [[doc|old|e m]|] eqn:Hp;
    [| |left; eexists; reflexivity|];
    (destruct (fs w !! removelast p) as [[| |entries mtime]|] eqn:Hparent;
     [left; eexists; reflexivity|left; eexists; reflexivity| |left; eexists; reflexivity]).
  all: right; exists entries, mtime; split; [reflexivity|]; split; [|reflexivity].
  all: intros Heq; rewrite Heq in Hparent; congruence.
Qed.

(** Writing the same text again leaves the files as they are. *)
Lemma write_text_twice p text w :
  fst (write_text p text (snd (write_text p text w))) = fst (write_text p text w)
  /\ fs (snd (write_text p text (snd (write_text p text w))))
     = fs (snd (write_text p text w)).
Proof.
  destruct (write_text_cases p text w) as [[e He]|(entries & mtime & Hparent & Hne & Hw)].
  - rewrite He. cbn [fst snd]. rewrite He. split; reflexivity.
  - rewrite Hw. cbn [fst snd].
    set (entries' := if existsb (String.eqb (path_name p)) entries
                     then entries else entries ++ [path_name p]).
    assert (Hin : existsb (String.eqb (path_name p)) entries' = true).
    { unfold entries'. destruct (existsb _ entries) eqn:Hex;
        [exact Hex|apply existsb_eqb_app]. }
    unfold write_text. cbn [fs console].
    rewrite lookup_insert_eq, lookup_insert_ne, lookup_insert_eq by congruence.
    rewrite Hin. cbn [fst snd fs]. split; [reflexivity|].
    rewrite (insert_id _ (removelast p)) by
      (rewrite lookup_insert_ne, lookup_insert_eq by congruence; reflexivity).
    apply insert_insert_eq.
Qed.

(** A write does not look at the console. *)
Lemma write_text_console p text (files : gmap path fnode) (c c' : list line) :
  write_text p text {| fs := files; console := c |}
  = (fst (write_text p text {| fs := files; console := c' |}),
     {| fs := fs (snd (write_text p text {| fs := files; console := c' |}));
        console := c |}).
Proof.
  unfold write_text. cbn [fs console].
  destruct (files !! p) as [[| |]|];
    try reflexivity; destruct (files !! removelast p) as [[| |]|]; reflexivity.
Qed.

(** What [generate_html_report] does, case by case. *)
Lemma generate_html_report_cases (clk : clock) (data : pyvalue) (equity drawdown : string)
    (trades : list pyvalue) p (results_folder : option path) w :
  generate_html_report clk data equity drawdown trades p results_folder w =
  match html_content clk data equity drawdown trades results_folder with
  | Ret html =>
      match write_text p html w with
      | (Ret _, w1) =>
          (Ret tt, printed w1 (Line ("Report generated successfully: " +:+ path_str p)))
      | (Raise e, w1) => (Raise e, w1)
      end
  | Raise e => (Raise e, w)
  end.
Proof.
  unfold generate_html_report, mbind, M_bind, lift.
  destruct (html_content _ _ _ _ _ _); [|reflexivity].
  destruct (write_text p a w) as [[[]|e] w1]; reflexivity.
Qed.

End Idempotence.

(** C2, as the code has it: the page carries the time at which it was
    generated, so composing the report twice from the same inputs to the
    same path, under the same reading of the clock, ends the same way and
    leaves the files as the first run left them: the second run writes,
    over the first, the text the first wrote. *)
Theorem report_twice_same_clock (clk : clock) (data : pyvalue)
    (equity_chart_b64 drawdown_chart_b64 : string) (trades : list pyvalue)
    (output_file : path) (results_folder : option path) (w : world) :
  let run := generate_html_report clk data equity_chart_b64 drawdown_chart_b64 trades
                                  output_file results_folder in
  fst (run (snd (run w))) = fst (run w)
  /\ fs (snd (run (snd (run w)))) = fs (snd (run w)).
Proof.
  cbv zeta. rewrite !generate_html_report_cases.
  destruct (html_content clk data equity_chart_b64 drawdown_chart_b64 trades results_folder)
    as [html|e]; [|split; reflexivity].
  pose proof (write_text_twice output_file html w) as [Hfst Hfs].
  destruct (write_text_cases output_file html w) as [[e He]|(entries & mtime & _ & _ & Hw)].
  - rewrite He. cbn [fst snd]. rewrite He. split; reflexivity.
  - rewrite Hw in *. cbn [fst snd] in *. unfold printed at 1 3. cbn [fs console].
    rewrite (write_text_console _ _ _ _ (console w)), Hfst. cbn [fst snd fs].
    split; [reflexivity|exact Hfs].
Qed.

(** C2 fails as stated: two runs from the same inputs to the same path,
    one second apart, leave two different texts in the file. *)
Lemma report_differs_a_second_later :
  exists text1 text2 : string,
    let run now :=
      generate_html_report (utc_clock now) sample_doc "" "" []
                           (sample_folder ++ ["report.html"]) (Some sample_folder) in
    let w1 := snd (run 1767304909 (sample_world sample_doc None)) in
    let w2 := snd (run 1767304910 w1) in
    fs w1 !! (sample_folder ++ ["report.html"]) = Some (FText text1)
    /\ fs w2 !! (sample_folder ++ ["report.html"]) = Some (FText text2)
    /\ String.eqb text1 text2 = false.
Proof.
  eexists. eexists. cbv zeta.
  split; [vm_compute; reflexivity|].
  split; [vm_compute; reflexivity|].
  vm_compute. reflexivity.
Qed.

(** ** A results document without the equity series *)

Section KeepsFiles.

Context {A B : Type}.

Lemma keeps_bind (m : M A) (k : A -> M B) :
  keeps_files m -> (forall a, keeps_files (k a)) -> keeps_files (m ≫= k).
Proof.
  intros Hm Hk w. unfold mbind, M_bind. specialize (Hm w).
  destruct (m w) as [[a|e] w1]; cbn [snd] in *; [|exact Hm].
  rewrite Hk. exact Hm.
Qed.

Lemma keeps_ret (a : A) : keeps_files (mret a).
Proof. intros w. reflexivity. Qed.

Lemma keeps_raise (e : exn) : keeps_files (@raise A e).
Proof. intros w. reflexivity. Qed.


End KeepsFiles.

Section Reads.

Implicit Types (p folder : path) (w : world).

Lemma keeps_print (text : string) : keeps_files (print text).
Proof. intros w. reflexivity. Qed.


Lemma keeps_path_exists p : keeps_files (path_exists p).
Proof. intros w. reflexivity. Qed.

Lemma keeps_is_dir p : keeps_files (is_dir p).
Proof. intros w. reflexivity. Qed.

Lemma keeps_glob_suffix p (suffix : string) : keeps_files (glob_suffix p suffix).
Proof. intros w. reflexivity. Qed.

Lemma keeps_only_dirs (l : list path) : keeps_files (only_dirs l).
Proof. intros w. reflexivity. Qed.

Lemma keeps_iterdir p : keeps_files (iterdir p).
Proof. intros w. unfold iterdir. destruct (fs w !! p) as [[| |]|]; reflexivity. Qed.

Lemma keeps_for_all {A : Type} (body : A -> M unit) (l : list A) :
  (forall x, keeps_files (body x)) -> keeps_files (for_all body l).
Proof.
  intros Hbody. induction l as [|x l IH]; [apply keeps_ret|].
  cbn [for_all]. apply keeps_bind; [apply Hbody|intros _; exact IH].
Qed.

Lemma keeps_get_most_recent (results_dir : string) :
  keeps_files (get_most_recent_results_folder results_dir).
Proof.
  unfold get_most_recent_results_folder.
  apply keeps_bind; [apply keeps_path_exists|]. intros [|]; cbn [negb];
    [|apply keeps_raise].
  apply keeps_bind; [apply keeps_iterdir|]. intros entries.
  apply keeps_bind; [apply keeps_only_dirs|]. intros [|f folders]; [apply keeps_raise|].
  apply keeps_bind; [intros w; reflexivity|].
  intros [|first rest]; [apply keeps_raise|apply keeps_ret].
Qed.

Lemma keeps_find_json_file folder : keeps_files (find_json_file folder).
Proof.
  unfold find_json_file.
  apply keeps_bind; [apply keeps_path_exists|]. intros [|]; [apply keeps_ret|].
  apply keeps_bind; [apply keeps_glob_suffix|]. intros [|first rest]; [apply keeps_raise|].
  apply keeps_bind; [apply keeps_print|]. intros _. apply keeps_ret.
Qed.

End Reads.

Section MissingSeries.

Variables frame figure : Type.
Variable equity_frame drawdown_frame : pyvalue -> outcome frame.
Variable create_equity_chart create_drawdown_chart : frame -> outcome figure.
Variable savefig_b64 : figure -> outcome string.

Lemma keeps_choose_results_folder (argv : list string) :
  keeps_files (choose_results_folder argv).
Proof.
  unfold choose_results_folder. destruct argv as [|prog [|folder_name rest]].
  1, 2: apply keeps_bind; [apply keeps_print|]; intros _;
        (apply keeps_bind; [apply keeps_get_most_recent|]); intros results_folder;
        (apply keeps_bind; [apply keeps_print|]); intros _; apply keeps_ret.
  apply keeps_bind; [apply keeps_path_exists|]. intros [|].
  - apply keeps_bind; [apply keeps_print|]. intros _. apply keeps_ret.
  - apply keeps_bind; [apply keeps_print|]. intros _.
    apply keeps_bind; [apply keeps_print|]. intros _.
    apply keeps_bind; [apply keeps_path_exists|]. intros present.
    apply keeps_bind; [|intros _; apply keeps_raise].
    destruct present; [|apply keeps_ret].
    apply keeps_bind; [apply keeps_iterdir|]. intros entries.
    apply keeps_for_all. intros folder.
    apply keeps_bind; [apply keeps_is_dir|]. intros [|];
      [apply keeps_print|apply keeps_ret].
Qed.

(** A path that the document does not have stops the chain of subscripts. *)
Lemma subscripts_missing {B : Type} (keys : list string) (k : pyvalue -> outcome B) :
  forall v, lookup_path v keys = None ->
            exists e, subscripts v keys k = Raise e /\ schema_missing e.
Proof.
  induction keys as [|key keys IH]; intros v Hmissing; [discriminate|].
  cbn [lookup_path subscripts] in *.
  destruct v as [| | | | | |d]; try (exists TypeError; split; [reflexivity|exact I]).
  unfold getitem. destruct (dict_get d key) as [x|].
  - apply IH. exact Hmissing.
  - exists (KeyError key). split; [reflexivity|exact I].
Qed.

Lemma extract_equity_series_missing (data : pyvalue) :
  lookup_path data equity_path = None ->
  exists e, extract_equity_series frame equity_frame data = Raise e /\ schema_missing e.
Proof.
  intros Hmissing.
  change (extract_equity_series frame equity_frame data)
    with (subscripts data equity_path equity_frame).
  apply subscripts_missing. exact Hmissing.
Qed.

(** C8: when the results document lacks the series of the chart
    "Strategy Equity" (a key of the path to its values is missing, or a
    value on the way is not an object), extracting the series raises the
    error of a missing key or of a value that is no object, and [main]
    ends with that error right after announcing the extraction: no chart
    has been drawn, and the files are those of the start, so no report
    has been written. *)
Theorem missing_equity_series_is_fatal (clk : clock) (argv : list string)
    (w w1 w2 : world) (results_folder json_file : path) (data : pyvalue) :
  choose_results_folder argv w = (Ret results_folder, w1) ->
  find_json_file results_folder w1 = (Ret json_file, w2) ->
  fs w !! json_file = Some (FJson data) ->
  lookup_path data equity_path = None ->
  exists e w',
    extract_equity_series frame equity_frame data = Raise e
    /\ schema_missing e
    /\ main frame figure equity_frame drawdown_frame create_equity_chart
            create_drawdown_chart savefig_b64 clk argv w = (Raise e, w')
    /\ fs w' = fs w
    /\ console w' = console w2 ++ [Line ("📄 Using results file: " +:+ path_name json_file);
                                   Line "Loading backtest results...";
                                   Line "Extracting equity curve..."].
Proof.
  intros Hchoose Hfind Hdata Hmissing.
  destruct (extract_equity_series_missing data Hmissing) as (e & Hextract & Hschema).
  assert (Hfs2 : fs w2 = fs w).
  { pose proof (keeps_choose_results_folder argv w) as H1.
    pose proof (keeps_find_json_file results_folder w1) as H2.
    rewrite Hchoose in H1. rewrite Hfind in H2. cbn [snd] in *. congruence. }
  exists e. eexists. split; [exact Hextract|]. split; [exact Hschema|].
  unfold main, report.
  unfold mbind at 1. unfold M_bind at 1. rewrite Hchoose.
  unfold mbind at 1. unfold M_bind at 1. unfold try_catch.
  unfold mbind at 1. unfold M_bind at 1. rewrite Hfind.
  unfold mbind at 1. unfold M_bind at 1. unfold print at 1. cbn [mret M_ret].
  unfold mbind at 1. unfold M_bind at 1. unfold print at 1.
  unfold mbind at 1. unfold M_bind at 1. unfold load_results, load_json. cbn [fs console].
  rewrite Hfs2, Hdata.
  unfold mbind at 1. unfold M_bind at 1. unfold print at 1.
  unfold mbind at 1. unfold M_bind at 1. unfold lift at 1. rewrite Hextract.
  cbn [fs console]. split; [reflexivity|]. split; [reflexivity|].
  rewrite <- !app_assoc. reflexivity.
Qed.

End MissingSeries.

Lemma missing_equity_series_witness :
  exists e w',
    main pyvalue pyvalue (fun v => Ret v) (fun v => Ret v) (fun v => Ret v) (fun v => Ret v)
         (fun _ => Ret "") (utc_clock 1767304909) ["visualize_backtest.py"]
         (sample_world sample_doc_no_charts None)
    = (Raise e, w')
    /\ schema_missing e
    /\ fs w' = fs (sample_world sample_doc_no_charts None).
Proof.
  destruct (missing_equity_series_is_fatal pyvalue pyvalue
              (fun v => Ret v) (fun v => Ret v) (fun v => Ret v) (fun v => Ret v)
              (fun _ => Ret "") (utc_clock 1767304909) ["visualize_backtest.py"]
              (sample_world sample_doc_no_charts None)
              (snd (choose_results_folder ["visualize_backtest.py"]
                      (sample_world sample_doc_no_charts None)))
              (snd (find_json_file sample_folder
                      (snd (choose_results_folder ["visualize_backtest.py"]
                              (sample_world sample_doc_no_charts None)))))
              sample_folder (sample_folder ++ ["BuyAndHold.json"]) sample_doc_no_charts)
    as (e & w' & _ & Hschema & Hmain & Hfs & _).
  - vm_compute. reflexivity.
  - vm_compute. reflexivity.
  - vm_compute. reflexivity.
  - reflexivity.
  - exists e, w'. split; [exact Hmain|]. split; [exact Hschema|exact Hfs].
Defined.


(** * Further properties of the code *)

(** ** The formatter and the letter case of a name *)

Section LetterCase.

Implicit Types (key : string) (value : pyvalue).

Lemma lower_upper_char (c : ascii) : lower_char (upper_char c) = lower_char c.
Proof. by_bits c; reflexivity. Qed.

Lemma lower_lower_char (c : ascii) : lower_char (lower_char c) = lower_char c.
Proof. by_bits c; reflexivity. Qed.

Lemma lower_upper (s : string) : lower (upper s) = lower s.
Proof.
  induction s as [|c s IH]; [reflexivity|].
  cbn [upper lower]. rewrite lower_upper_char, IH. reflexivity.
Qed.

Lemma lower_lower (s : string) : lower (lower s) = lower s.
Proof.
  induction s as [|c s IH]; [reflexivity|].
  cbn [lower]. rewrite lower_lower_char, IH. reflexivity.
Qed.

(** The formatter and the loop read a name through [lower] only. *)
Lemma format_stat_value_lower key1 key2 value :
  lower key1 = lower key2 ->
  format_stat_value key1 value = format_stat_value key2 value.
Proof. intros Hlower. unfold format_stat_value. rewrite Hlower. reflexivity. Qed.

End LetterCase.

(** The format of a statistic and its bucket do not depend on the letter
    case of its name: an ASCII name in upper case, or in lower case, is
    formatted as the name itself and falls in the same bucket. *)
Theorem name_case_does_not_matter (key : string) (value : pyvalue) :
  is_ascii key = true ->
  format_stat_value (upper key) value = format_stat_value key value
  /\ format_stat_value (lower key) value = format_stat_value key value
  /\ classify (upper key) = classify key
  /\ classify (lower key) = classify key.
Proof.
  intros _. split; [|split; [|split]].
  - apply format_stat_value_lower, lower_upper.
  - apply format_stat_value_lower, lower_lower.
  - unfold classify. rewrite lower_upper. reflexivity.
  - unfold classify. rewrite lower_lower. reflexivity.
Qed.

Lemma name_case_witness :
  format_stat_value "SHARPE RATIO" (VStr "1.2345") = Ret (VStr "123.45%")
  /\ classify "SHARPE RATIO" = classify "Sharpe Ratio".
Proof.
  destruct (name_case_does_not_matter "Sharpe Ratio" (VStr "1.2345") eq_refl)
    as (Hupper & _ & Hclass & _).
  split; [exact Hupper|exact Hclass].
Defined.

(** Whatever the name and the value, the formatter returns, and what it
    returns is a string or the value it was given. *)
Theorem format_stat_value_string_or_same (key : string) (value : pyvalue) :
  exists shown,
    format_stat_value key value = Ret shown
    /\ (shown = value \/ exists text, shown = VStr text).
Proof.
  unfold format_stat_value, try_except, mbind, outcome_bind.
  destruct (any_in percentage_keywords (lower key)).
  - destruct (truthy value); [|eexists; split; [reflexivity|right; eexists; reflexivity]].
    destruct (py_float value); eexists; (split; [reflexivity|]); eauto.
  - destruct (any_in currency_keywords (lower key)).
    + destruct (py_float value); eexists; (split; [reflexivity|]); eauto.
    + destruct (py_float value) as [num|]; [destruct (SFltb (SFabs num) f100)|];
        eexists; (split; [reflexivity|]); eauto.
Qed.

(** ** The time stamp of a folder name, read backwards *)

Section StampFound.

Implicit Types (l base rest : list ascii).

Lemma match_stamp_digits l (d8 d6 : list ascii) rest :
  match_stamp l = Some (d8, d6, rest) ->
  forallb is_digit d8 = true /\ forallb is_digit d6 = true.
Proof.
  unfold match_stamp. destruct l as [|c l1]; [discriminate|].
  by_bits c; try discriminate.
  destruct (drop 8 l1) as [|c l2]; [discriminate|].
  by_bits c; try discriminate.
  destruct ((length (take 8 l1) =? 8)%nat); [|discriminate].
  destruct (forallb is_digit (take 8 l1)) eqn:Hd8; [|discriminate].
  destruct ((length (take 6 l2) =? 6)%nat); [|discriminate].
  destruct (forallb is_digit (take 6 l2)) eqn:Hd6; [|discriminate].
  cbn [andb]. intros [= <- <- <-]. split; assumption.
Qed.

Lemma search_stamp_Some l : forall base (d8 d6 : list ascii) rest,
  search_stamp l = Some (base, d8, d6, rest) ->
  l = base ++ "-"%char :: d8 ++ "-"%char :: d6 ++ rest
  /\ length d8 = 8%nat /\ length d6 = 6%nat
  /\ forallb is_digit d8 = true /\ forallb is_digit d6 = true
  /\ at_end rest = true.
Proof.
  induction l as [|c l IH]; intros base d8 d6 rest.
  - cbn. discriminate.
  - cbn [search_stamp]. unfold match_stamp_end.
    destruct (match_stamp (c :: l)) as [[[a b] r]|] eqn:Hm;
      [destruct (at_end r) eqn:Hend|].
    + intros [= <- <- <- <-].
      destruct (match_stamp_Some _ _ _ _ Hm) as (Heq & H8 & H6).
      destruct (match_stamp_digits _ _ _ _ Hm) as (Hd8 & Hd6).
      repeat split; assumption.
    + destruct (search_stamp l) as [[[[base' a'] b'] r']|] eqn:Hs; [|discriminate].
      intros [= <- <- <- <-].
      destruct (IH _ _ _ _ eq_refl) as (Heq & Hrest). split; [|exact Hrest].
      cbn [app]. rewrite <- Heq. reflexivity.
    + destruct (search_stamp l) as [[[[base' a'] b'] r']|] eqn:Hs; [|discriminate].
      intros [= <- <- <- <-].
      destruct (IH _ _ _ _ eq_refl) as (Heq & Hrest). split; [|exact Hrest].
      cbn [app]. rewrite <- Heq. reflexivity.
Qed.

End StampFound.

(** The strategy name derived from an ASCII folder name is the folder
    name itself, or the folder name without sixteen characters that end it
    (a final newline apart): a dash, eight digits, a dash and six digits.
    Nothing else is ever removed. *)
Theorem strip_stamp_cases (s : string) :
  is_ascii s = true ->
  strip_stamp s = s
  \/ exists base d8 d6 rest : list ascii,
       chars s = base ++ "-"%char :: d8 ++ "-"%char :: d6 ++ rest
       /\ length d8 = 8%nat /\ length d6 = 6%nat
       /\ forallb is_digit d8 = true /\ forallb is_digit d6 = true
       /\ at_end rest = true
       /\ strip_stamp s = of_chars (base ++ rest).
Proof.
  intros _. unfold strip_stamp.
  destruct (search_stamp (chars s)) as [[[[base d8] d6] rest]|] eqn:Hs; [|left; reflexivity].
  right. exists base, d8, d6, rest.
  destruct (search_stamp_Some _ _ _ _ _ Hs) as (Heq & H8 & H6 & Hd8 & Hd6 & Hend).
  repeat split; assumption.
Qed.

Lemma strip_stamp_cases_witness :
  strip_stamp "BuyAndHold-2026-01-01" = "BuyAndHold-2026-01-01"
  \/ exists base d8 d6 rest : list ascii,
       chars "BuyAndHold-2026-01-01" = base ++ "-"%char :: d8 ++ "-"%char :: d6 ++ rest
       /\ length d8 = 8%nat /\ length d6 = 6%nat
       /\ forallb is_digit d8 = true /\ forallb is_digit d6 = true
       /\ at_end rest = true
       /\ strip_stamp "BuyAndHold-2026-01-01" = of_chars (base ++ rest).
Proof. apply (strip_stamp_cases "BuyAndHold-2026-01-01"). reflexivity. Defined.


(** ** Loading the trades *)

Section LoadingTrades.

Implicit Types (events trades : list pyvalue) (w : world) (folder : path).

(** When the filter returns, it returns the filled entries. *)
Lemma filled_returns events : forall trades,
  filled events = Ret trades -> trades = List.filter is_filled events.
Proof.
  induction events as [|e events IH]; intros trades.
  - cbn. intros [= <-]. reflexivity.
  - cbn [filled List.filter]. unfold get_method.
    destruct e as [| | | | | |d]; try discriminate.
    destruct (filled events) as [rest|] eqn:Hrest.
    + rewrite (IH rest eq_refl). unfold is_filled.
      destruct (dict_get d "status") as [[]|]; cbn; intros [= <-]; reflexivity.
    + destruct (dict_get d "status"); discriminate.
Qed.

End LoadingTrades.

(** Loading the trades never raises and changes no file, whatever the
    folder holds; every trade it returns is an entry whose status is the
    string "filled". *)
Theorem load_order_events_is_safe (folder : path) (w : world) :
  exists trades w',
    load_order_events folder w = (Ret trades, w')
    /\ fs w' = fs w
    /\ Forall (fun trade => is_filled trade = true) trades.
Proof.
  rewrite load_order_events_cases.
  destruct (order_events_file w folder) as [file|];
    [|eexists; eexists; split; [reflexivity|split; [reflexivity|constructor]]].
  unfold load_json.
  destruct (fs w !! file) as [[events| |]|];
    try (eexists; eexists; split; [reflexivity|split; [reflexivity|constructor]]).
  destruct (iterate events) as [l|] eqn:Hiter; cbn [mbind outcome_bind];
    [|eexists; eexists; split; [reflexivity|split; [reflexivity|constructor]]].
  destruct (filled l) as [trades|] eqn:Hfilled;
    [|eexists; eexists; split; [reflexivity|split; [reflexivity|constructor]]].
  exists trades, w. split; [reflexivity|]. split; [reflexivity|].
  rewrite (filled_returns l trades Hfilled).
  apply Forall_forall. intros trade Hin. apply list_elem_of_In, filter_In in Hin. tauto.
Qed.


(** ** Finding the results file *)

Section FindingFiles.

Implicit Types (w : world) (folder p : path) (s suffix : string).



(** What [find_json_file] does, case by case. *)
Lemma find_json_file_cases folder w :
  find_json_file folder w =
  let named := folder ++ [strip_stamp (path_name folder) +:+ ".json"] in
  match fs w !! named with
  | Some _ => (Ret named, w)
  | None =>
      match fs w !! folder with
      | Some (FDir entries _) =>
          match List.filter (ends_with ".json") entries with
          | [] => (Raise FileNotFoundError, w)
          | name :: _ =>
              (Ret (folder ++ [name]),
               printed w (Line ("Warning: Expected " +:+ strip_stamp (path_name folder)
                                +:+ ".json not found, using: " +:+ path_name (folder ++ [name]))))
          end
      | _ => (Raise FileNotFoundError, w)
      end
  end.
Proof.
  unfold find_json_file. cbv zeta.
  unfold mbind at 1. unfold M_bind at 1. unfold path_exists at 1.
  destruct (fs w !! (folder ++ [strip_stamp (path_name folder) +:+ ".json"])); [reflexivity|].
  unfold mbind at 1. unfold M_bind at 1. unfold glob_suffix at 1.
  destruct (fs w !! folder) as [[| |entries mtime]|]; try reflexivity.
  destruct (List.filter (ends_with ".json") entries); reflexivity.
Qed.

End FindingFiles.



(** ** The most recent folder *)

Section MostRecent.

Context {A : Type} (key : A -> Z).


End MostRecent.





(** ** The table of trades *)

Section TradesTable.

Implicit Types (clk : clock) (trade : pyvalue) (trades : list pyvalue) (html : string).

Lemma string_app_empty (s : string) : s +:+ "" = s.
Proof.
  induction s as [|c s IH]; [reflexivity|].
  change (String c s +:+ "") with (String c (s +:+ "")). rewrite IH. reflexivity.
Qed.

Lemma string_concat_cons (row : string) (rows : list string) :
  String.concat "" (row :: rows) = row +:+ String.concat "" rows.
Proof.
  destruct rows as [|row' rows]; [symmetry; apply string_app_empty|reflexivity].
Qed.

(** The loop of the table appends one row per trade, in their order. *)
Lemma rows_loop clk trades : forall html html',
  for_each (fun html trade => row ← trade_row clk trade; Ret (html +:+ row)) trades html
  = Ret html' ->
  exists rows,
    Forall2 (fun trade row => trade_row clk trade = Ret row) trades rows
    /\ html' = html +:+ String.concat "" rows.
Proof.
  induction trades as [|trade trades IH]; intros html html'.
  - cbn. intros [= <-]. exists []. split; [constructor|]. symmetry. apply string_app_empty.
  - rewrite for_each_cons.
    destruct (trade_row clk trade) as [row|e] eqn:Hrow; [|discriminate].
    cbn [mbind outcome_bind]. intros Hloop.
    destruct (IH _ _ Hloop) as (rows & Hrows & ->).
    exists (row :: rows). split; [constructor; assumption|].
    rewrite string_concat_cons, string_app_assoc. reflexivity.
Qed.

(** A row needs its trade to be an object with the fields it subscripts. *)
Lemma trade_row_complete clk trade (row : string) :
  trade_row clk trade = Ret row -> ~ incomplete trade.
Proof.
  unfold trade_row, incomplete, get_method, getitem.
  destruct trade as [| | | | | |d]; try discriminate.
  intros Hrow (field & Hin & Hmissing).
  destruct (dict_get d "time") eqn:Htime; [|discriminate].
  cbn [mbind outcome_bind] in Hrow.
  destruct (fromtimestamp clk p); [|discriminate].
  cbn [mbind outcome_bind] in Hrow.
  destruct (dict_get d "symbol"); cbn [mbind outcome_bind] in Hrow;
    (destruct (dict_get d "symbolValue"); cbn [mbind outcome_bind] in Hrow;
     (destruct (dict_get d "direction") eqn:Hdirection; [|discriminate];
      cbn [mbind outcome_bind] in Hrow;
      (destruct (upper_method _); [|discriminate]); cbn [mbind outcome_bind] in Hrow;
      (destruct (dict_get d "fillQuantity") eqn:Hquantity; [|discriminate]);
      cbn [mbind outcome_bind] in Hrow;
      (destruct (dict_get d "fillPrice") eqn:Hprice; [|discriminate]);
      cbn [mbind outcome_bind] in Hrow;
      (destruct (py_mul _ _); [|discriminate]); cbn [mbind outcome_bind] in Hrow;
      (destruct (py_abs _); [|discriminate]); cbn [mbind outcome_bind] in Hrow;
      (destruct (dict_get d "orderFeeAmount"); cbn [mbind outcome_bind] in Hrow;
       (destruct (dict_get d "orderId") eqn:Horder; [|discriminate])))).
  all: unfold required_fields in Hin; cbn [In] in Hin;
       destruct Hin as [<-|[<-|[<-|[<-|[<-|[]]]]]]; congruence.
Qed.

(** The trades of a table that is shown are complete. *)
Lemma trades_html_complete clk trades html :
  trades_html_of clk trades = Ret html -> Forall (fun trade => ~ incomplete trade) trades.
Proof.
  unfold trades_html_of. destruct trades as [|trade trades]; [constructor|].
  set (l := trade :: trades).
  destruct (for_each _ l trades_open) as [table|e] eqn:Hloop; [|discriminate].
  intros _. destruct (rows_loop clk l _ _ Hloop) as (rows & Hrows & _).
  clear Hloop. induction Hrows as [|t r ts rs Hrow _ IH]; constructor.
  - eapply trade_row_complete, Hrow.
  - exact IH.
Qed.

End TradesTable.

(** When the trades are shown, the table is its fixed opening, one row
    per trade in the order of the trades, and its fixed closing; with no
    trade, the text that stands for the table. *)
Theorem trades_table_rows (clk : clock) (trades : list pyvalue) (html : string) :
  trades_html_of clk trades = Ret html ->
  exists rows,
    Forall2 (fun trade row => trade_row clk trade = Ret row) trades rows
    /\ html = match trades with
              | [] => no_trades
              | _ => trades_open +:+ String.concat "" rows +:+ trades_close
              end.
Proof.
  unfold trades_html_of. destruct trades as [|trade trades].
  - intros [= <-]. exists []. split; [constructor|reflexivity].
  - set (l := trade :: trades).
    destruct (for_each _ l trades_open) as [table|e] eqn:Hloop; [|discriminate].
    cbn [mbind outcome_bind]. intros [= <-].
    destruct (rows_loop clk l _ _ Hloop) as (rows & Hrows & ->).
    exists rows. split; [exact Hrows|]. rewrite string_app_assoc. reflexivity.
Qed.

Lemma trades_table_rows_witness :
  exists rows,
    Forall2 (fun trade row => trade_row (utc_clock 0) trade = Ret row)
            [sample_trade; sample_trade] rows
    /\ length rows = 2%nat.
Proof.
  destruct (trades_table_rows (utc_clock 0) [sample_trade; sample_trade]
              (match trades_html_of (utc_clock 0) [sample_trade; sample_trade] with
               | Ret html => html
               | Raise _ => ""
               end))
    as (rows & Hrows & _).
  - vm_compute. reflexivity.
  - exists rows. split; [exact Hrows|].
    apply Forall2_length in Hrows. symmetry. exact Hrows.
Defined.

(** A trade that is no object, or lacks one of the fields [time],
    [direction], [fillQuantity], [fillPrice] and [orderId], stops the
    report: it raises before the output file is opened, so the files and
    the console are left as they were. *)
Theorem incomplete_trade_stops_report (clk : clock) (data : pyvalue)
    (equity_chart_b64 drawdown_chart_b64 : string) (trades : list pyvalue)
    (output_file : path) (results_folder : option path) (w : world) (trade : pyvalue) :
  In trade trades ->
  incomplete trade ->
  exists e,
    generate_html_report clk data equity_chart_b64 drawdown_chart_b64 trades output_file
                         results_folder w
    = (Raise e, w).
Proof.
  intros Hin Hincomplete. rewrite generate_html_report_cases.
  destruct (html_content clk data equity_chart_b64 drawdown_chart_b64 trades results_folder)
    as [html|e] eqn:Hhtml; [exfalso|exists e; reflexivity].
  unfold html_content in Hhtml.
  destruct (getitem data "statistics"); [|discriminate]. cbn [mbind outcome_bind] in Hhtml.
  destruct (getitem data "algorithmConfiguration"); [|discriminate].
  cbn [mbind outcome_bind] in Hhtml.
  destruct (strategy_name_of _ _ _); [|discriminate]. cbn [mbind outcome_bind] in Hhtml.
  destruct (organize_stats _); [|discriminate]. cbn [mbind outcome_bind] in Hhtml.
  destruct (trades_html_of clk trades) as [table|] eqn:Htable; [|discriminate].
  clear Hhtml.
  pose proof (trades_html_complete clk trades table Htable) as Hall.
  rewrite Forall_forall in Hall. apply (Hall trade); [apply list_elem_of_In, Hin|exact Hincomplete].
Qed.

Lemma incomplete_trade_stops_report_witness :
  exists e,
    generate_html_report (utc_clock 1767304909) sample_doc "" ""
                         [sample_trade; VDict [("status", VStr "filled")]]
                         (sample_folder ++ ["report.html"]) (Some sample_folder)
                         (sample_world sample_doc None)
    = (Raise e, sample_world sample_doc None).
Proof.
  apply (incomplete_trade_stops_report _ _ _ _ _ _ _ _ (VDict [("status", VStr "filled")])).
  - right. left. reflexivity.
  - exists "time". split; [left; reflexivity|reflexivity].
Defined.


(** ** All of the report, or none *)



(** ** A results document without the drawdown series *)

Section MissingDrawdown.

Variables frame figure : Type.
Variable equity_frame drawdown_frame : pyvalue -> outcome frame.
Variable create_equity_chart create_drawdown_chart : frame -> outcome figure.
Variable savefig_b64 : figure -> outcome string.

Lemma extract_drawdown_series_missing (data : pyvalue) :
  lookup_path data drawdown_path = None ->
  exists e, extract_drawdown_series frame drawdown_frame data = Raise e /\ schema_missing e.
Proof.
  intros Hmissing.
  change (extract_drawdown_series frame drawdown_frame data)
    with (subscripts data drawdown_path drawdown_frame).
  apply subscripts_missing. exact Hmissing.
Qed.

(** When the results document has the equity series but lacks the series
    of the chart "Drawdown", [main] ends with the error of a missing key or
    of a value that is no object, right after announcing the extraction of
    the drawdown: no chart has been drawn, and the files are those of the
    start, so no report has been written. *)
Theorem missing_drawdown_series_is_fatal (clk : clock) (argv : list string)
    (w w1 w2 : world) (results_folder json_file : path) (data : pyvalue)
    (equity_df : frame) :
  choose_results_folder argv w = (Ret results_folder, w1) ->
  find_json_file results_folder w1 = (Ret json_file, w2) ->
  fs w !! json_file = Some (FJson data) ->
  extract_equity_series frame equity_frame data = Ret equity_df ->
  lookup_path data drawdown_path = None ->
  exists e w',
    schema_missing e
    /\ main frame figure equity_frame drawdown_frame create_equity_chart
            create_drawdown_chart savefig_b64 clk argv w = (Raise e, w')
    /\ fs w' = fs w
    /\ console w' = console w2 ++ [Line ("📄 Using results file: " +:+ path_name json_file);
                                   Line "Loading backtest results...";
                                   Line "Extracting equity curve...";
                                   Line "Extracting drawdown data..."].
Proof.
  intros Hchoose Hfind Hdata Hequity Hmissing.
  destruct (extract_drawdown_series_missing data Hmissing) as (e & Hextract & Hschema).
  assert (Hfs2 : fs w2 = fs w).
  { pose proof (keeps_choose_results_folder argv w) as H1.
    pose proof (keeps_find_json_file results_folder w1) as H2.
    rewrite Hchoose in H1. rewrite Hfind in H2. cbn [snd] in *. congruence. }
  exists e. eexists. split; [exact Hschema|].
  unfold main, report.
  unfold mbind at 1. unfold M_bind at 1. rewrite Hchoose.
  unfold mbind at 1. unfold M_bind at 1. unfold try_catch.
  unfold mbind at 1. unfold M_bind at 1. rewrite Hfind.
  unfold mbind at 1. unfold M_bind at 1. unfold print at 1. cbn [mret M_ret].
  unfold mbind at 1. unfold M_bind at 1. unfold print at 1.
  unfold mbind at 1. unfold M_bind at 1. unfold load_results, load_json. cbn [fs console].
  rewrite Hfs2, Hdata.
  unfold mbind at 1. unfold M_bind at 1. unfold print at 1.
  unfold mbind at 1. unfold M_bind at 1. unfold lift at 1. rewrite Hequity.
  unfold mbind at 1. unfold M_bind at 1. unfold print at 1.
  unfold mbind at 1. unfold M_bind at 1. unfold lift at 1. rewrite Hextract.
  cbn [fs console]. split; [reflexivity|]. split; [reflexivity|].
  rewrite <- !app_assoc. reflexivity.
Qed.

End MissingDrawdown.

Lemma missing_drawdown_series_witness :
  let doc :=
    VDict [("charts",
            VDict [("Strategy Equity",
                    VDict [("series", VDict [("Equity", VDict [("values", VList [])])])])])] in
  exists e w',
    main pyvalue pyvalue (fun v => Ret v) (fun v => Ret v) (fun v => Ret v) (fun v => Ret v)
         (fun _ => Ret "") (utc_clock 1767304909) ["visualize_backtest.py"]
         (sample_world doc None)
    = (Raise e, w')
    /\ schema_missing e
    /\ fs w' = fs (sample_world doc None).
Proof.
  intros doc.
  destruct (missing_drawdown_series_is_fatal pyvalue pyvalue
              (fun v => Ret v) (fun v => Ret v) (fun v => Ret v) (fun v => Ret v)
              (fun _ => Ret "") (utc_clock 1767304909) ["visualize_backtest.py"]
              (sample_world doc None)
              (snd (choose_results_folder ["visualize_backtest.py"] (sample_world doc None)))
              (snd (find_json_file sample_folder
                      (snd (choose_results_folder ["visualize_backtest.py"]
                              (sample_world doc None)))))
              sample_folder (sample_folder ++ ["BuyAndHold.json"]) doc (VList []))
    as (e & w' & Hschema & Hmain & Hfs & _).
  - vm_compute. reflexivity.
  - vm_compute. reflexivity.
  - vm_compute. reflexivity.
  - reflexivity.
  - reflexivity.
  - exists e, w'. split; [exact Hmain|]. split; [exact Hschema|exact Hfs].
Defined.


(** ** The files a run writes *)

Section WritesOnly.

Context {A B : Type}.

Implicit Types (paths : list path).




End WritesOnly.

Section Writes.

Implicit Types (p folder : path) (w : world).

Lemma keeps_load_json p : keeps_files (load_json p).
Proof. intros w. unfold load_json. destruct (fs w !! p) as [[| |]|]; reflexivity. Qed.

Lemma keeps_load_order_events folder : keeps_files (load_order_events folder).
Proof.
  intros w. rewrite load_order_events_cases.
  destruct (order_events_file w folder) as [file|]; [|reflexivity].
  unfold load_json. destruct (fs w !! file) as [[events| |]|]; try reflexivity.
  destruct (events ← iterate events; filled events); reflexivity.
Qed.



End Writes.

Section RunWrites.

Variables frame figure : Type.
Variable equity_frame drawdown_frame : pyvalue -> outcome frame.
Variable create_equity_chart create_drawdown_chart : frame -> outcome figure.
Variable savefig_b64 : figure -> outcome string.



End RunWrites.


(** ** The ways [main] gives up *)

Section Exits.

Variables frame figure : Type.
Variable equity_frame drawdown_frame : pyvalue -> outcome frame.
Variable create_equity_chart create_drawdown_chart : frame -> outcome figure.
Variable savefig_b64 : figure -> outcome string.



(** When the results folder holds neither the file named after the
    strategy nor any entry whose name ends with [.json], [main] prints the
    error and exits with status 1, before any file is read or written. *)
Theorem no_results_file_exits_1 (clk : clock) (argv : list string) (w w1 : world)
    (results_folder : path) :
  choose_results_folder argv w = (Ret results_folder, w1) ->
  fs w !! (results_folder ++ [strip_stamp (path_name results_folder) +:+ ".json"]) = None ->
  (forall entries mtime,
     fs w !! results_folder = Some (FDir entries mtime) ->
     List.filter (ends_with ".json") entries = []) ->
  main frame figure equity_frame drawdown_frame create_equity_chart create_drawdown_chart
       savefig_b64 clk argv w
  = (Raise (SystemExit 1), printed w1 (LineExn "❌ Error: " FileNotFoundError))
  /\ fs w1 = fs w.
Proof.
  intros Hchoose Hnamed Hnone.
  assert (Hfs : fs w1 = fs w).
  { pose proof (keeps_choose_results_folder argv w) as Hkeeps.
    rewrite Hchoose in Hkeeps. exact Hkeeps. }
  split; [|exact Hfs].
  unfold main. unfold mbind at 1. unfold M_bind at 1. rewrite Hchoose.
  unfold mbind at 1. unfold M_bind at 1. unfold try_catch.
  unfold mbind at 1. unfold M_bind at 1.
  rewrite find_json_file_cases. cbv zeta. rewrite Hfs, Hnamed.
  destruct (fs w !! results_folder) as [[| |entries mtime]|] eqn:Hfolder; try reflexivity.
  rewrite (Hnone entries mtime eq_refl). reflexivity.
Qed.

End Exits.


Lemma no_results_file_exits_1_witness :
  let w := {| fs := list_to_map [(["Results"], FDir ["Empty"] 0);
                                 (["Results"; "Empty"], FDir ["notes.txt"] 0)];
              console := [] |} in
  exists w',
    main pyvalue pyvalue (fun v => Ret v) (fun v => Ret v) (fun v => Ret v) (fun v => Ret v)
         (fun _ => Ret "") (utc_clock 1767304909) ["visualize_backtest.py"] w
    = (Raise (SystemExit 1), w')
    /\ fs w' = fs w.
Proof.
  intros w.
  destruct (no_results_file_exits_1 pyvalue pyvalue
              (fun v => Ret v) (fun v => Ret v) (fun v => Ret v) (fun v => Ret v)
              (fun _ => Ret "") (utc_clock 1767304909) ["visualize_backtest.py"] w
              (snd (choose_results_folder ["visualize_backtest.py"] w))
              ["Results"; "Empty"]) as [Hmain Hfs].
  - vm_compute. reflexivity.
  - vm_compute. reflexivity.
  - intros entries mtime. vm_compute. intros [= <- <-]. reflexivity.
  - eexists. split; [exact Hmain|exact Hfs].
Defined.


(** ** A run that ends well *)

Section Inversion.

Context {A B : Type}.

Lemma bind_ret (m : M A) (k : A -> M B) (w w' : world) (b : B) :
  (m ≫= k) w = (Ret b, w') ->
  exists a w1, m w = (Ret a, w1) /\ k a w1 = (Ret b, w').
Proof.
  unfold mbind, M_bind. destruct (m w) as [[a|e] w1]; [|discriminate].
  intros Hk. exists a, w1. split; [reflexivity|exact Hk].
Qed.

Lemma lift_ret (o : outcome A) (w w' : world) (a : A) :
  lift o w = (Ret a, w') -> o = Ret a /\ w' = w.
Proof. unfold lift. intros [= -> ->]. split; reflexivity. Qed.

Lemma keeps_run (m : M A) (w w' : world) (o : outcome A) :
  keeps_files m -> m w = (o, w') -> fs w' = fs w.
Proof. intros Hm Hrun. specialize (Hm w). rewrite Hrun in Hm. exact Hm. Qed.

End Inversion.

Section GoodRun.

Variables frame figure : Type.
Variable equity_frame drawdown_frame : pyvalue -> outcome frame.
Variable create_equity_chart create_drawdown_chart : frame -> outcome figure.
Variable savefig_b64 : figure -> outcome string.

(** The trades loaded depend on the files only. *)
Lemma load_order_events_fs (folder : path) (w w0 : world) :
  fs w0 = fs w -> fst (load_order_events folder w0) = fst (load_order_events folder w).
Proof.
  intros Hfs. rewrite !load_order_events_cases.
  unfold order_events_file, load_json. rewrite Hfs.
  destruct (fs w !! _) as [node|].
  - destruct (fs w !! _) as [[events| |]|]; try reflexivity.
    destruct (l ← iterate events; filled l); reflexivity.
  - destruct (fs w !! folder) as [[| |entries mtime]|]; try reflexivity.
    destruct (head _) as [file|]; [|reflexivity].
    destruct (fs w !! file) as [[events| |]|]; try reflexivity.
    destruct (l ← iterate events; filled l); reflexivity.
Qed.

Lemma summary_value (data : pyvalue) (key : string) (v : pyvalue) :
  (stats ← getitem data "statistics"; getitem stats key) = Ret v ->
  lookup_path data ["statistics"; key] = Some v.
Proof.
  unfold getitem. cbn [lookup_path].
  destruct data as [| | | | | |d]; try discriminate.
  destruct (dict_get d "statistics") as [[| | | | | |stats]|]; try discriminate.
  cbn [mbind outcome_bind]. destruct (dict_get stats key); [|discriminate].
  intros [= ->]. reflexivity.
Qed.

Lemma summary_number (data : pyvalue) (key : string) (f : spec_float) :
  (stats ← getitem data "statistics"; v ← getitem stats key; py_float v) = Ret f ->
  exists v, lookup_path data ["statistics"; key] = Some v /\ py_float v = Ret f.
Proof.
  unfold getitem. cbn [lookup_path].
  destruct data as [| | | | | |d]; try discriminate.
  destruct (dict_get d "statistics") as [[| | | | | |stats]|]; try discriminate.
  cbn [mbind outcome_bind]. destruct (dict_get stats key) as [v|]; [|discriminate].
  cbn [mbind outcome_bind]. intros Hfloat. exists v. split; [reflexivity|exact Hfloat].
Qed.

(** When [main] returns, it has read the results from a file of the
    folder it chose, drawn both charts, composed the page from the
    results, the two pictures and the trades of the folder, and left that
    page in [report.html] of the folder; and the results have the five
    statistics of the summary, the two equities as numbers. *)
Theorem good_run_leaves_the_report (clk : clock) (argv : list string) (w w' : world) :
  main frame figure equity_frame drawdown_frame create_equity_chart create_drawdown_chart
       savefig_b64 clk argv w = (Ret tt, w') ->
  exists (results_folder : path) (name : string) (data : pyvalue)
         (equity_df drawdown_df : frame) (equity_fig drawdown_fig : figure)
         (equity_chart_b64 drawdown_chart_b64 html : string),
    fs w !! (results_folder ++ [name]) = Some (FJson data)
    /\ extract_equity_series frame equity_frame data = Ret equity_df
    /\ create_equity_chart equity_df = Ret equity_fig
    /\ fig_to_base64 figure savefig_b64 equity_fig = Ret equity_chart_b64
    /\ extract_drawdown_series frame drawdown_frame data = Ret drawdown_df
    /\ create_drawdown_chart drawdown_df = Ret drawdown_fig
    /\ fig_to_base64 figure savefig_b64 drawdown_fig = Ret drawdown_chart_b64
    /\ html_content clk data equity_chart_b64 drawdown_chart_b64
                    (trades_of w results_folder) (Some results_folder) = Ret html
    /\ fs w' !! (results_folder ++ ["report.html"]) = Some (FText html)
    /\ (forall key, In key summary_statistics ->
                    exists v, lookup_path data ["statistics"; key] = Some v)
    /\ (forall key, key = "Start Equity" \/ key = "End Equity" ->
                    exists v f, lookup_path data ["statistics"; key] = Some v
                                /\ py_float v = Ret f).
Proof.
  intros Hmain. unfold main in Hmain.
  apply bind_ret in Hmain as (results_folder & w1 & Hchoose & Hmain).
  apply bind_ret in Hmain as (json_file & w2 & Hfind & Hreport).
  pose proof (keeps_run _ _ _ _ (keeps_choose_results_folder argv) Hchoose) as Hfs1.
  (* the results file *)
  unfold try_catch in Hfind.
  destruct ((json_file ← find_json_file results_folder;
             print ("📄 Using results file: " +:+ path_name json_file);; mret json_file) w1)
    as [[found|e] w2'] eqn:Hbody.
  2: { destruct e; discriminate. }
  injection Hfind as -> ->.
  apply bind_ret in Hbody as (found & w1a & Hfound & Hbody).
  apply bind_ret in Hbody as ([] & w1b & Hprint & Hbody).
  injection Hbody as -> ->.
  pose proof (keeps_run _ _ _ _ (keeps_find_json_file results_folder) Hfound) as Hfs1a.
  pose proof (keeps_run _ _ _ _ (keeps_print _) Hprint) as Hfs2.
  assert (Hname : exists name, json_file = results_folder ++ [name]).
  { rewrite find_json_file_cases in Hfound. cbv zeta in Hfound.
    destruct (fs w1 !! _); [injection Hfound as <- _; eexists; reflexivity|].
    destruct (fs w1 !! results_folder) as [[| |entries mtime]|]; try discriminate.
    destruct (List.filter _ entries); [discriminate|].
    injection Hfound as <- _. eexists; reflexivity. }
  destruct Hname as [name ->].
  (* the report *)
  unfold report in Hreport.
  apply bind_ret in Hreport as ([] & wa & Hp1 & Hreport).
  apply bind_ret in Hreport as (data & wb & Hload & Hreport).
  apply bind_ret in Hreport as ([] & wc & Hp2 & Hreport).
  apply bind_ret in Hreport as (equity_df & wd & Hequity & Hreport).
  apply bind_ret in Hreport as ([] & we & Hp3 & Hreport).
  apply bind_ret in Hreport as (drawdown_df & wf & Hdrawdown & Hreport).
  apply bind_ret in Hreport as ([] & wg & Hp4 & Hreport).
  apply bind_ret in Hreport as (equity_fig & wh & Hefig & Hreport).
  apply bind_ret in Hreport as (equity_chart_b64 & wi & He64 & Hreport).
  apply bind_ret in Hreport as (drawdown_fig & wj & Hdfig & Hreport).
  apply bind_ret in Hreport as (drawdown_chart_b64 & wk & Hd64 & Hreport).
  apply bind_ret in Hreport as ([] & wl & Hp5 & Hreport).
  apply bind_ret in Hreport as (trades & wm & Htrades & Hreport).
  apply bind_ret in Hreport as ([] & wn & Hp6 & Hreport).
  apply bind_ret in Hreport as ([] & wo & Hp7 & Hreport).
  apply bind_ret in Hreport as ([] & wp & Hgenerate & Hreport).
  apply bind_ret in Hreport as ([] & wq & Hp8 & Hreport).
  apply bind_ret in Hreport as (start_equity & wr & Hstart & Hreport).
  apply bind_ret in Hreport as ([] & ws & Hp9 & Hreport).
  apply bind_ret in Hreport as (end_equity & wt & Hend & Hreport).
  apply bind_ret in Hreport as ([] & wu & Hp10 & Hreport).
  apply bind_ret in Hreport as (net_profit & wv & Hnet & Hreport).
  apply bind_ret in Hreport as ([] & ww & Hp11 & Hreport).
  apply bind_ret in Hreport as (sharpe & wx & Hsharpe & Hreport).
  apply bind_ret in Hreport as ([] & wy & Hp12 & Hreport).
  apply bind_ret in Hreport as (drawdown & wz & Hdd & Hreport).
  apply bind_ret in Hreport as ([] & wz1 & Hp13 & Hreport).
  apply bind_ret in Hreport as ([] & wz2 & Hp14 & Hp15).
  (* the files before the report is written *)
  apply lift_ret in Hequity as [Hequity ->], Hdrawdown as [Hdrawdown ->].
  apply lift_ret in Hefig as [Hefig ->], He64 as [He64 ->].
  apply lift_ret in Hdfig as [Hdfig ->], Hd64 as [Hd64 ->].
  apply lift_ret in Hstart as [Hstart ->], Hend as [Hend ->], Hnet as [Hnet ->].
  apply lift_ret in Hsharpe as [Hsharpe ->], Hdd as [Hdd ->].
  pose proof (keeps_run _ _ _ _ (keeps_print _) Hp1) as Hfsa.
  pose proof (keeps_run _ _ _ _ (keeps_load_json _) Hload) as Hfsb.
  pose proof (keeps_run _ _ _ _ (keeps_print _) Hp2) as Hfsc.
  pose proof (keeps_run _ _ _ _ (keeps_print _) Hp3) as Hfse.
  pose proof (keeps_run _ _ _ _ (keeps_print _) Hp4) as Hfsg.
  pose proof (keeps_run _ _ _ _ (keeps_print _) Hp5) as Hfsl.
  pose proof (keeps_run _ _ _ _ (keeps_load_order_events _) Htrades) as Hfsm.
  assert (Hfswl : fs wl = fs w) by congruence.
  (* the files after it *)
  pose proof (keeps_run _ _ _ _ (keeps_print _) Hp8) as Hfsq.
  pose proof (keeps_run _ _ _ _ (keeps_print _) Hp9) as Hfss.
  pose proof (keeps_run _ _ _ _ (keeps_print _) Hp10) as Hfsu.
  pose proof (keeps_run _ _ _ _ (keeps_print _) Hp11) as Hfsw.
  pose proof (keeps_run _ _ _ _ (keeps_print _) Hp12) as Hfsy.
  pose proof (keeps_run _ _ _ _ (keeps_print _) Hp13) as Hfsz1.
  pose proof (keeps_run _ _ _ _ (keeps_print _) Hp14) as Hfsz2.
  pose proof (keeps_run _ _ _ _ (keeps_print _) Hp15) as Hfsz3.
  assert (Hfs' : fs w' = fs wp) by congruence.
  (* the page *)
  rewrite generate_html_report_cases in Hgenerate.
  destruct (html_content clk data equity_chart_b64 drawdown_chart_b64 trades
              (Some results_folder)) as [html|] eqn:Hhtml; [|discriminate].
  destruct (write_text_cases (results_folder ++ ["report.html"]) html wo)
    as [[e He]|(entries & mtime & _ & _ & Hwrite)];
    [rewrite He in Hgenerate; discriminate|].
  rewrite Hwrite in Hgenerate. injection Hgenerate as <-.
  assert (Htrades_of : trades = trades_of w results_folder).
  { unfold trades_of. rewrite <- (load_order_events_fs results_folder w wl) by congruence.
    rewrite Htrades. reflexivity. }
  exists results_folder, name, data, equity_df, drawdown_df, equity_fig, drawdown_fig,
         equity_chart_b64, drawdown_chart_b64, html.
  split. { unfold load_results, load_json in Hload.
           assert (Hfswa : fs wa = fs w) by congruence. rewrite Hfswa in Hload.
           destruct (fs w !! (results_folder ++ [name])) as [[doc| |]|]; try discriminate.
           injection Hload as -> _. reflexivity. }
  split; [exact Hequity|]. split; [exact Hefig|]. split; [exact He64|].
  split; [exact Hdrawdown|]. split; [exact Hdfig|]. split; [exact Hd64|].
  split; [rewrite <- Htrades_of; exact Hhtml|].
  split. { rewrite Hfs'. cbn [printed fs]. apply lookup_insert_eq. }
  split.
  - intros key Hkey. unfold summary_statistics in Hkey. cbn [In] in Hkey.
    destruct (summary_number _ _ _ Hstart) as (v1 & Hv1 & _).
    destruct (summary_number _ _ _ Hend) as (v2 & Hv2 & _).
    destruct Hkey as [<-|[<-|[<-|[<-|[<-|[]]]]]]; eexists;
      first [exact Hv1|exact Hv2|eapply summary_value; eassumption].
  - intros key [->| ->];
      [destruct (summary_number _ _ _ Hstart) as (v & Hv & Hf)
      |destruct (summary_number _ _ _ Hend) as (v & Hv & Hf)];
      exists v; eexists; split; [exact Hv|exact Hf|exact Hv|exact Hf].
Qed.

End GoodRun.

Lemma good_run_witness :
  let run :=
    main pyvalue pyvalue (fun v => Ret v) (fun v => Ret v) (fun v => Ret v) (fun v => Ret v)
         (fun _ => Ret "") (utc_clock 1767304909) ["visualize_backtest.py"]
         (sample_world sample_doc (Some (FJson (VList sample_events)))) in
  fst run = Ret tt
  /\ exists results_folder html,
       fs (snd run) !! (results_folder ++ ["report.html"]) = Some (FText html).
Proof.
  intros run.
  assert (Hrun : run = (Ret tt, snd run)) by (vm_compute; reflexivity).
  split; [rewrite Hrun; reflexivity|].
  destruct (good_run_leaves_the_report pyvalue pyvalue
              (fun v => Ret v) (fun v => Ret v) (fun v => Ret v) (fun v => Ret v)
              (fun _ => Ret "") (utc_clock 1767304909) ["visualize_backtest.py"]
              (sample_world sample_doc (Some (FJson (VList sample_events)))) (snd run) Hrun)
    as (results_folder & name & data & edf & ddf & efig & dfig & e64 & d64 & html
        & _ & _ & _ & _ & _ & _ & _ & _ & Hfile & _).
  exists results_folder, html. exact Hfile.
Defined.
